(** * Token lifecycle and request dispatch of the Grasshopper login component

    A shallow embedding of [src/grasshopper/login.py] (class [User]) and of
    the library calls it relies on, followed by the properties of the
    token-lifecycle manager and of the request dispatcher.

    Conventions of the embedding.
    - Python values that flow through the component (token strings, JSON
      responses, request bodies) are values of [pyval]; Python 2 byte strings
      and unicode strings are both [string], and [encode('utf8')] /
      [decode('utf8')] are the identity.
    - A [timedelta] is its number of microseconds, an integer; the float
      returned by [total_seconds()] is that number divided by 10^6, so the
      comparison with [time_remaining] seconds is done on microseconds.
    - JSON numbers are integers; fractional numbers are outside the model.
    - Mutable state is explicit: the module-level [_RESPONSE_CACHE], the
      class attribute [User.content_header] (one dictionary shared by every
      instance), the requests handed to [urlopen] and the clock live in
      [World]; the attributes of one instance live in [User].
    - The clock is read from [World] and does not advance while a method
      runs; timestamps outside the range of [datetime] are not modelled.
    - A method is a state transformer over [World * User] that returns a
      value or raises; what was written before a raise stays written. *)

From Stdlib Require Import ZArith NArith Ascii String Bool List Lia.
From Stdlib Require Import DecimalString.
From stdpp Require Import base option gmap strings list.

Local Open Scope Z_scope.

Set Warnings "-register-all".

(** ** Python values *)

Inductive pyval : Type :=
  | PNone
  | PBool (b : bool)
  | PInt (n : Z)
  | PStr (s : string)
  | PList (l : list pyval)
  | PDict (d : list (string * pyval)).

(** [bool(v)]: the truth value used by [if v], [not v] and [a and b]. *)
Definition truthy (v : pyval) : bool :=
  match v with
  | PNone => false
  | PBool b => b
  | PInt n => negb (n =? 0)
  | PStr s => negb (String.eqb s EmptyString)
  | PList l => match l with [] => false | _ => true end
  | PDict d => match d with [] => false | _ => true end
  end.

(** A dictionary is kept as its items; a key occurs at most once in the
    dictionaries built here, and lookup takes the first binding. *)
Fixpoint dict_lookup (k : string) (d : list (string * pyval)) : option pyval :=
  match d with
  | [] => None
  | (k', v) :: d' => if String.eqb k k' then Some v else dict_lookup k d'
  end.

(** ** Exceptions and results *)

Inductive exn : Type :=
  | IndexError
  | TypeError
  | ValueError
  | KeyError (key : string)
  | AttributeError (attr : string)
  | Exception_ (msg : string).

Inductive res (A : Type) : Type :=
  | Ok (a : A)
  | Raise (e : exn).
Arguments Ok {A} a.
Arguments Raise {A} e.

(** [v.get(k, None)] *)
Definition py_get (v : pyval) (k : string) : res pyval :=
  match v with
  | PDict d => Ok (default PNone (dict_lookup k d))
  | _ => Raise (AttributeError "get")
  end.

(** [v[k]] for a string key [k] *)
Definition py_getitem (v : pyval) (k : string) : res pyval :=
  match v with
  | PDict d => match dict_lookup k d with
               | Some x => Ok x
               | None => Raise (KeyError k)
               end
  | _ => Raise TypeError
  end.

(** ** Strings *)

Module Str.

Fixpoint startswith (p s : string) : bool :=
  match p, s with
  | EmptyString, _ => true
  | String a p', String b s' => Ascii.eqb a b && startswith p' s'
  | String _ _, EmptyString => false
  end.

(** [s.split(sep)] for a one-character separator. *)
Fixpoint split (sep : ascii) (s : string) : list string :=
  match s with
  | EmptyString => [EmptyString]
  | String c s' =>
      if Ascii.eqb c sep then EmptyString :: split sep s'
      else match split sep s' with
           | h :: t => String c h :: t
           | [] => [String c EmptyString]
           end
  end.

(** [s[-1]], absent on the empty string. *)
Fixpoint last (s : string) : option ascii :=
  match s with
  | EmptyString => None
  | String c EmptyString => Some c
  | String _ s' => last s'
  end.

(** [s[:-1]] *)
Fixpoint init (s : string) : string :=
  match s with
  | EmptyString => EmptyString
  | String _ EmptyString => EmptyString
  | String c s' => String c (init s')
  end.

(** [c * n] *)
Fixpoint replicate (n : nat) (c : ascii) : string :=
  match n with
  | O => EmptyString
  | S n' => String c (replicate n' c)
  end.

Fixpoint join (sep : string) (l : list string) : string :=
  match l with
  | [] => EmptyString
  | [x] => x
  | x :: l' => x +:+ sep +:+ join sep l'
  end.

End Str.

(** ** [base64.b64decode]

    [base64.b64decode(s)] without [altchars] is [binascii.a2b_base64(s)]
    with [binascii.Error] turned into [TypeError].  The decoder below is the
    loop of [a2b_base64]: bytes above 0x7f, CR, LF, space and every
    character outside the standard alphabet [A-Za-z0-9+/] are skipped; a
    pad character ends the input once a quad holds at least two characters
    (at exactly two only when another pad follows); leftover bits at the
    end are an error ("Incorrect padding"). *)

Module Base64.

Local Open Scope N_scope.

Definition pad : ascii := "="%char.

(** [table_a2b_base64] restricted to the alphabet proper (the table maps
    the pad character to 0, which [is_valid] accounts for). *)
Definition value (c : ascii) : option N :=
  let n := N_of_ascii c in
  if (65 <=? n) && (n <=? 90) then Some (n - 65)
  else if (97 <=? n) && (n <=? 122) then Some (n - 71)
  else if (48 <=? n) && (n <=? 57) then Some (n + 4)
  else if n =? 43 then Some 62
  else if n =? 47 then Some 63
  else None.

Definition is_valid (c : ascii) : bool :=
  Ascii.eqb c pad || match value c with Some _ => true | None => false end.

(** [binascii_find_valid(s, slen, num)]: the [(num+1)]-th valid character. *)
Fixpoint find_valid (s : list ascii) (num : nat) : option ascii :=
  match s with
  | [] => None
  | c :: s' =>
      if is_valid c then
        match num with
        | O => Some c
        | S num' => find_valid s' num'
        end
      else find_valid s' num
  end.

Record state : Type := State {
  leftchar : N;
  leftbits : N;
  quad_pos : N;
  bin_data : list ascii   (* bytes produced so far, oldest first *)
}.

Definition init : state := State 0 0 0 [].

Definition skipped (c : ascii) : bool :=
  let n := N_of_ascii c in
  (127 <? n) || (n =? 13) || (n =? 10) || (n =? 32).

(** One accepted alphabet character with value [v]. *)
Definition shift_in (v : N) (st : state) : state :=
  let qp := N.land (quad_pos st + 1) 3 in
  let lc := N.lor (N.shiftl (leftchar st) 6) v in
  let lb := leftbits st + 6 in
  if 8 <=? lb then
    let lb' := lb - 8 in
    State (N.land lc (N.shiftl 1 lb' - 1)) lb' qp
          (bin_data st ++ [ascii_of_N (N.land (N.shiftr lc lb') 255)])
  else State lc lb qp (bin_data st).

Fixpoint loop (s : list ascii) (st : state) : state :=
  match s with
  | [] => st
  | c :: s' =>
      if skipped c then loop s' st
      else if Ascii.eqb c pad then
        if (quad_pos st <? 2)
           || ((quad_pos st =? 2)
               && negb (bool_decide (find_valid s 1 = Some pad)))
        then loop s' st
        else State (leftchar st) 0 (quad_pos st) (bin_data st)
      else match value c with
           | None => loop s' st
           | Some v => loop s' (shift_in v st)
           end
  end.

Definition a2b_base64 (s : string) : option string :=
  let st := loop (list_ascii_of_string s) init in
  if leftbits st =? 0 then Some (string_of_list_ascii (bin_data st))
  else None.

Definition b64decode (s : string) : res string :=
  match a2b_base64 s with
  | Some b => Ok b
  | None => Raise TypeError
  end.

(** The encoder on the side of the token issuer: three bytes become four
    characters of the standard alphabet, a remainder of one or two bytes
    becomes two or three characters, and no padding is appended (the
    form of a JWT segment). *)
Definition alphabet (v : N) : ascii :=
  if v <? 26 then ascii_of_N (65 + v)
  else if v <? 52 then ascii_of_N (71 + v)
  else if v <? 62 then ascii_of_N (v - 4)
  else if v =? 62 then "+"%char
  else "/"%char.

Fixpoint encode_bytes (bs : list ascii) : list ascii :=
  match bs with
  | [] => []
  | [a] =>
      let a := N_of_ascii a in
      [alphabet (a / 4); alphabet ((a mod 4) * 16)]
  | [a; b] =>
      let a := N_of_ascii a in
      let b := N_of_ascii b in
      [alphabet (a / 4); alphabet ((a mod 4) * 16 + b / 16);
       alphabet ((b mod 16) * 4)]
  | a :: b :: c :: rest =>
      let a := N_of_ascii a in
      let b := N_of_ascii b in
      let c := N_of_ascii c in
      alphabet (a / 4) :: alphabet ((a mod 4) * 16 + b / 16)
      :: alphabet ((b mod 16) * 4 + c / 64) :: alphabet (c mod 64)
      :: encode_bytes rest
  end.

Definition encode (text : string) : string :=
  string_of_list_ascii (encode_bytes (list_ascii_of_string text)).









End Base64.


(** ** [urllib.urlencode]

    [urlencode(query)] joins [quote_plus(k) + '=' + quote_plus(v)] for the
    items of [query] with ['&']; [quote_plus] keeps letters, digits and
    [_.-], turns a space into [+] and any other byte into [%XX]. *)

Module Urllib.

Local Open Scope N_scope.

Definition always_safe (c : ascii) : bool :=
  let n := N_of_ascii c in
  ((65 <=? n) && (n <=? 90)) || ((97 <=? n) && (n <=? 122))
  || ((48 <=? n) && (n <=? 57))
  || (n =? 95) || (n =? 46) || (n =? 45).

Definition hex_digit (n : N) : ascii :=
  if n <? 10 then ascii_of_N (48 + n) else ascii_of_N (55 + n).

Fixpoint quote_plus (s : string) : string :=
  match s with
  | EmptyString => EmptyString
  | String c s' =>
      if always_safe c then String c (quote_plus s')
      else if Ascii.eqb c " " then String "+" (quote_plus s')
      else String "%" (String (hex_digit (N_of_ascii c / 16))
                      (String (hex_digit (N_of_ascii c mod 16))
                              (quote_plus s')))
  end.

Definition urlencode (query : list (string * string)) : string :=
  Str.join "&"
    (map (fun kv => quote_plus (fst kv) +:+ "=" +:+ quote_plus (snd kv))
         query).

End Urllib.

(** ** The platform: JSON codec, string conversion and the remote service *)

(** The [Request] object handed to [urlopen]. *)
Record Request : Type := mkRequest {
  req_url : string;
  req_method : string;
  req_data : pyval;                      (* [PNone]: no body *)
  req_headers : gmap string string
}.

(** What [urlopen(r).read()] does: the body of a 2xx response, or one of the
    two [urllib2] exceptions.  [HTTPError] is the subclass of [URLError]
    raised for an HTTP error status; it has a [code] and a [reason].  A
    plain [URLError] (connection refused, name resolution failure) has a
    [reason] and no [code] attribute. *)
Inductive urlopen_result : Type :=
  | Response (body : string)
  | HTTPError (code : Z) (reason : string)
  | URLError (reason : string).

Class Platform : Type := {
  (** [json.loads]; [None] when it raises *)
  json_loads : string -> option pyval;
  (** [json.dumps]; [None] when it raises *)
  json_dumps : pyval -> option string;
  (** [str(v)] for a value that is not a string *)
  py_str : pyval -> string;
  (** the remote service: earlier requests, newest first, and this one *)
  urlopen : list Request -> Request -> urlopen_result
}.

(** ** State *)

(** An instance of [class User]. *)
Record User : Type := mkUser {
  host_url : string;
  username : string;
  password : string;
  _access_token : pyval;
  _refresh_token : pyval
}.

(** What every instance shares. *)
Record World : Type := mkWorld {
  content_header : gmap string string;           (* [User.content_header] *)
  _RESPONSE_CACHE : gmap (string * string) pyval;
  outbox : list Request;                         (* newest first *)
  utcnow : Z                                     (* microseconds since the epoch *)
}.

(** [User.__init__] *)
Definition User_init (username password host : string) : User :=
  mkUser host username password (PStr EmptyString) (PStr EmptyString).

(** The module as loaded: the class attribute and the empty cache. *)
Definition World_init (now : Z) : World :=
  mkWorld {[ "content-type" := "application/json" ]} ∅ [] now.

Definition set_access_token (v : pyval) (u : User) : User :=
  mkUser (host_url u) (username u) (password u) v (_refresh_token u).

Definition set_refresh_token (v : pyval) (u : User) : User :=
  mkUser (host_url u) (username u) (password u) (_access_token u) v.

Definition set_content_header (h : gmap string string) (w : World) : World :=
  mkWorld h (_RESPONSE_CACHE w) (outbox w) (utcnow w).

Definition set_response_cache (c : gmap (string * string) pyval) (w : World)
  : World :=
  mkWorld (content_header w) c (outbox w) (utcnow w).

Definition push_outbox (r : Request) (w : World) : World :=
  mkWorld (content_header w) (_RESPONSE_CACHE w) (r :: outbox w) (utcnow w).

(** ** The monad of methods *)

Definition St : Type := World * User.
Definition M (A : Type) : Type := St -> St * res A.

Definition ret {A} (a : A) : M A := fun s => (s, Ok a).
Definition raise {A} (e : exn) : M A := fun s => (s, Raise e).
Definition bind {A B} (m : M A) (k : A -> M B) : M B :=
  fun s => match m s with
           | (s', Ok a) => k a s'
           | (s', Raise e) => (s', Raise e)
           end.
Definition lift {A} (r : res A) : M A := fun s => (s, r).
Definition get_world : M World := fun s => (s, Ok (fst s)).
Definition get_self : M User := fun s => (s, Ok (snd s)).
Definition modify_world (f : World -> World) : M unit :=
  fun s => ((f (fst s), snd s), Ok tt).
Definition modify_self (f : User -> User) : M unit :=
  fun s => ((fst s, f (snd s)), Ok tt).

Notation "x <- m ;; k" := (bind m (fun x => k))
  (at level 100, m at next level, right associativity).
Notation "m ;;; k" := (bind m (fun _ => k))
  (at level 100, right associativity).

Definition res_bind {A B} (r : res A) (k : A -> res B) : res B :=
  match r with Ok a => k a | Raise e => Raise e end.
Notation "'let?' x := r 'in' k" := (res_bind r (fun x => k))
  (at level 10, x name, r at level 200, k at level 200).

(** ** The methods of [class User] *)

Section User.

Context `{Platform}.

(** [User.token] *)
Definition token (u : User) : pyval := _access_token u.

(** The padding step of [User.jwt_payload]. *)
Definition padded (payload_bytes : string) : string :=
  let missing_padding := (String.length payload_bytes mod 4)%nat in
  if Nat.eqb missing_padding 0 then payload_bytes
  else payload_bytes +:+ Str.replicate (4 - missing_padding) Base64.pad.

(** [User.jwt_payload] *)
Definition jwt_payload (u : User) : res pyval :=
  if negb (truthy (_access_token u)) then Ok PNone
  else
    match _access_token u with
    | PStr tok =>
        match Str.split "." tok with
        | _ :: payload_bytes :: _ =>
            let payload_bytes := padded payload_bytes in
            let? raw := Base64.b64decode payload_bytes in
            match json_loads raw with
            | Some payload => Ok payload
            | None => Raise ValueError
            end
        | _ => Raise IndexError
        end
    | _ => Raise (AttributeError "split")
    end.

(** [datetime.utcfromtimestamp(v)], in microseconds since the epoch. *)
Definition utcfromtimestamp (v : pyval) : res Z :=
  match v with
  | PInt n => Ok (n * 1000000)
  | PBool b => Ok (if b then 1000000 else 0)
  | _ => Raise TypeError
  end.

Definition no_expiry : exn :=
  Exception_ "Could not get expiry timestamp from JWT token".

(** [User.token_exp_time]: microseconds until expiry, [None] without a
    payload. *)
Definition token_exp_time (now : Z) (u : User) : res (option Z) :=
  let? payload := jwt_payload u in
  match payload with
  | PNone => Ok None
  | _ =>
      let? exp_timestamp := py_get payload "exp" in
      if negb (truthy exp_timestamp) then Raise no_expiry
      else
        let? expiry := utcfromtimestamp exp_timestamp in
        Ok (Some (expiry - now))
  end.

(** [User.geturl] *)
Definition geturl (host_url path : string) : res string :=
  match Str.last host_url with
  | None => Raise IndexError
  | Some c =>
      Ok ((if Ascii.eqb c "/" then Str.init host_url else host_url) +:+ path)
  end.

(** [User.operation_method] *)
Definition operation_method (operation : string) : string :=
  if String.eqb operation "list" then "GET"
  else if String.eqb operation "read" then "GET"
  else if String.eqb operation "create" then "POST"
  else if String.eqb operation "update" then "PUT"
  else if String.eqb operation "partial_update" then "PATCH"
  else "GET".

(** ['JWT %s' % v] *)
Definition format_s (v : pyval) : string :=
  match v with
  | PStr s => s
  | _ => py_str v
  end.

(** The two [update]s of [User.headers] on a dictionary [header]. *)
Definition updated_header (header : gmap string string) (tok : pyval)
    (extra_headers : option (gmap string string)) : gmap string string :=
  let header :=
    if truthy tok
    then <[ "Authorization" := "JWT " +:+ format_s tok ]> header
    else header in
  match extra_headers with
  | Some extra => if decide (extra = ∅) then header else extra ∪ header
  | None => header
  end.

(** [User.headers]: [header] is the class dictionary itself, so the
    updates are written to [content_header]. *)
Definition headers (extra_headers : option (gmap string string))
  : M (gmap string string) :=
  u <- get_self ;;
  w <- get_world ;;
  let header := updated_header (content_header w) (token u) extra_headers in
  modify_world (set_content_header header) ;;;
  ret header.

(** [User.clear_tokens] *)
Definition clear_tokens : M unit :=
  modify_self (set_access_token (PStr EmptyString)) ;;;
  modify_self (set_refresh_token (PStr EmptyString)).

(** [User.set_cached_response] *)
Definition set_cached_response (method url : string) (data : pyval) : M unit :=
  modify_world
    (fun w => set_response_cache (<[ (method, url) := data ]> (_RESPONSE_CACHE w)) w).

(** [User.get_cached_response] *)
Definition get_cached_response (method url : string) : M pyval :=
  u <- get_self ;;
  url <- lift (geturl (host_url u) url) ;;
  w <- get_world ;;
  ret (default PNone (_RESPONSE_CACHE w !! (method, url))).

(** [urlopen(r).read()] inside the [try] of [User.request].  The handler
    evaluates [err.code] before it reads [err.reason]. *)
Definition send (r : Request) : M string :=
  w <- get_world ;;
  modify_world (push_outbox r) ;;;
  match urlopen (outbox w) r with
  | Response body => ret body
  | HTTPError code reason => ret reason
  | URLError reason => raise (AttributeError "code")
  end.

Definition caches_response (method : string) (sendRaw : bool) : bool :=
  (String.eqb method "POST" || String.eqb method "PUT"
   || String.eqb method "PATCH") && negb sendRaw.

(** "Append url parameters to the url" *)
Definition with_params (url : string) (params : option (list (string * string)))
  : string :=
  let url_params :=
    match params with
    | Some ((_ :: _) as q) => Some (Urllib.urlencode q)
    | _ => None
    end in
  match url_params with
  | Some q => if String.eqb q EmptyString then url else url +:+ "?" +:+ q
  | None => url
  end.

(** "Set the data that should be sent" and "Remove data from GET requests" *)
Definition body (method : string) (data : pyval) (sendRaw : bool) : pyval :=
  let data :=
    if caches_response method sendRaw
    then match json_dumps data with Some s => PStr s | None => data end
    else data in
  if String.eqb method "GET" then PNone else data.

(** "Try to parse the response as JSON, otherwise just return the raw
    response" *)
Definition parse_response (response : string) : pyval :=
  match json_loads response with
  | Some v => v
  | None => PStr response
  end.

(** [User.request] from "Do the full request url" on (lines 182-224). *)
Definition dispatch (method url : string) (data : pyval)
    (params : option (list (string * string)))
    (extra_headers : option (gmap string string)) (sendRaw : bool)
  : M pyval :=
  u <- get_self ;;
  url <- lift (geturl (host_url u) url) ;;
  let url := with_params url params in
  let cache_response := caches_response method sendRaw in
  let data := body method data sendRaw in
  header <- headers extra_headers ;;
  response <- send (mkRequest url method data header) ;;
  let response_data := parse_response response in
  (if cache_response then set_cached_response method url response_data
   else ret tt) ;;;
  ret response_data.

(** [exp_time and exp_time > time_remaining], [time_remaining] in seconds. *)
Definition still_valid (exp_time : option Z) (time_remaining : Z) : bool :=
  match exp_time with
  | None => false
  | Some t => negb (t =? 0) && (time_remaining * 1000000 <? t)
  end.

(** [User.refresh_token].  Its call of [self.request] has a url that
    starts with [/auth-jwt/], so the refresh check of [request] is skipped
    and the call is [dispatch]. *)
Definition refresh_token (time_remaining : Z) : M pyval :=
  u <- get_self ;;
  if negb (truthy (_refresh_token u)) then ret PNone
  else
    w <- get_world ;;
    exp_time <- lift (token_exp_time (utcnow w) u) ;;
    if still_valid exp_time time_remaining then ret (token u)
    else
      response_dict <-
        dispatch "POST" "/auth-jwt/refresh/"
                 (PDict [("refresh", _refresh_token u)]) None None false ;;
      access <- lift (py_getitem response_dict "access") ;;
      modify_self (set_access_token access) ;;;
      u <- get_self ;;
      w <- get_world ;;
      lift (token_exp_time (utcnow w) u) ;;;
      ret (token u).

(** [User.request] *)
Definition request (method url : string) (data : pyval)
    (params : option (list (string * string)))
    (extra_headers : option (gmap string string)) (sendRaw : bool)
  : M pyval :=
  (if negb (Str.startswith "/auth-jwt/" url)
   then refresh_token 20 ;;; ret tt
   else ret tt) ;;;
  dispatch method url data params extra_headers sendRaw.

(** [User.verify_token] *)
Definition verify_token : M pyval :=
  u <- get_self ;;
  response_dict <-
    request "POST" "/auth-jwt/verify/" (PDict [("token", token u)])
            None None false ;;
  access <- lift (py_getitem response_dict "access") ;;
  modify_self (set_access_token access) ;;;
  u <- get_self ;;
  ret (token u).

Definition login_failed : exn := Exception_ "Error getting token: %s".

(** [User.get_token] *)
Definition get_token : M pyval :=
  clear_tokens ;;;
  u <- get_self ;;
  response_dict <-
    request "POST" "/auth-jwt/get/"
            (PDict [("username", PStr (username u));
                    ("password", PStr (password u))])
            None None false ;;
  access <- lift (py_get response_dict "access") ;;
  modify_self (set_access_token access) ;;;
  refresh <- lift (py_get response_dict "refresh") ;;
  modify_self (set_refresh_token refresh) ;;;
  (match access, refresh with
   | PNone, _ | _, PNone => raise login_failed
   | _, _ => ret tt
   end) ;;;
  u <- get_self ;;
  w <- get_world ;;
  lift (token_exp_time (utcnow w) u) ;;;
  ret (token u).

(** The envelope [request] builds from the outcome of the exchange, when
    the handler of [URLError] does not raise. *)
Definition envelope (r : urlopen_result) : option pyval :=
  match r with
  | Response b => Some (parse_response b)
  | HTTPError _ b => Some (parse_response b)
  | URLError _ => None
  end.

(** The request [dispatch] hands to [urlopen]. *)
Definition outgoing (w : World) (u : User) (method url : string)
    (data : pyval) (params : option (list (string * string)))
    (extra_headers : option (gmap string string)) (sendRaw : bool)
  : Request :=
  mkRequest (with_params url params) method (body method data sendRaw)
            (updated_header (content_header w) (token u) extra_headers).

(** The tail of [refresh_token], lines 154-156, on the response of the
    refresh request. *)
Definition store_access (response_dict : pyval) : M pyval :=
  access <- lift (py_getitem response_dict "access") ;;
  modify_self (set_access_token access) ;;;
  u <- get_self ;;
  w <- get_world ;;
  lift (token_exp_time (utcnow w) u) ;;;
  ret (token u).

(** [v] is a mapping that contains the key [k]. *)
Definition has_key (v : pyval) (k : string) : bool :=
  match v with
  | PDict d => match dict_lookup k d with Some _ => true | None => false end
  | _ => false
  end.


End User.

(** ** A reference platform

    A JSON codec for the fragment without fractional numbers and without
    [\u] escapes, used to run the methods on concrete tokens and responses.
    The theorems below hold for every platform. *)

Module Json.

Definition is_ws (c : ascii) : bool :=
  Ascii.eqb c " " || Ascii.eqb c "009" || Ascii.eqb c "010" || Ascii.eqb c "013".

Definition dquote : ascii := "034"%char.

Definition is_digit (c : ascii) : bool :=
  (48 <=? N_of_ascii c)%N && (N_of_ascii c <=? 57)%N.

Fixpoint skip_ws (s : list ascii) : list ascii :=
  match s with
  | c :: s' => if is_ws c then skip_ws s' else s
  | [] => []
  end.

(** The characters of a string literal after its opening quote. *)
Fixpoint str_body (s : list ascii) : option (string * list ascii) :=
  match s with
  | [] => None
  | c :: s' =>
      if Ascii.eqb c dquote then Some (EmptyString, s')
      else if (N_of_ascii c <? 32)%N then None
      else if Ascii.eqb c "\" then
        match s' with
        | e :: s'' =>
            let esc :=
              if Ascii.eqb e dquote then Some dquote
              else if Ascii.eqb e "\" then Some "\"%char
              else if Ascii.eqb e "/" then Some "/"%char
              else if Ascii.eqb e "n" then Some "010"%char
              else if Ascii.eqb e "t" then Some "009"%char
              else if Ascii.eqb e "r" then Some "013"%char
              else if Ascii.eqb e "b" then Some "008"%char
              else if Ascii.eqb e "f" then Some "012"%char
              else None in
            match esc, str_body s'' with
            | Some x, Some (t, r) => Some (String x t, r)
            | _, _ => None
            end
        | [] => None
        end
      else match str_body s' with
           | Some (t, r) => Some (String c t, r)
           | None => None
           end
  end.

Fixpoint digits (s : list ascii) (acc : Z) : Z * list ascii :=
  match s with
  | c :: s' =>
      if is_digit c then digits s' (10 * acc + (Z.of_N (N_of_ascii c) - 48))
      else (acc, s)
  | [] => (acc, [])
  end.

(** An optional minus sign, then 0 or a digit string without leading
    zero; a fraction or an exponent after it is outside the fragment. *)
Definition number (s : list ascii) : option (Z * list ascii) :=
  let '(neg, s1) :=
    match s with
    | c :: r => if Ascii.eqb c "-" then (true, r) else (false, s)
    | [] => (false, s)
    end in
  match s1 with
  | c :: r =>
      if is_digit c then
        let '(n, rest) := if Ascii.eqb c "0" then (0, r) else digits s1 0 in
        match rest with
        | d :: _ =>
            if Ascii.eqb d "." || Ascii.eqb d "e" || Ascii.eqb d "E"
            then None
            else Some (if neg then - n else n, rest)
        | [] => Some (if neg then - n else n, rest)
        end
      else None
  | [] => None
  end.

(** [d[k] = v] on the items of a dictionary. *)
Fixpoint dict_set (k : string) (v : pyval) (d : list (string * pyval))
  : list (string * pyval) :=
  match d with
  | [] => [(k, v)]
  | (k', v') :: d' =>
      if String.eqb k k' then (k, v) :: d' else (k', v') :: dict_set k v d'
  end.

Fixpoint value (fuel : nat) (s : list ascii) : option (pyval * list ascii) :=
  match fuel with
  | O => None
  | S fuel =>
      match skip_ws s with
      | "{"%char :: r =>
          match skip_ws r with
          | "}"%char :: r' => Some (PDict [], r')
          | r' => members fuel r' []
          end
      | "["%char :: r =>
          match skip_ws r with
          | "]"%char :: r' => Some (PList [], r')
          | r' => elements fuel r' []
          end
      | "034"%char :: r =>
          match str_body r with
          | Some (t, r') => Some (PStr t, r')
          | None => None
          end
      | "t"%char :: "r"%char :: "u"%char :: "e"%char :: r =>
          Some (PBool true, r)
      | "f"%char :: "a"%char :: "l"%char :: "s"%char :: "e"%char :: r =>
          Some (PBool false, r)
      | "n"%char :: "u"%char :: "l"%char :: "l"%char :: r =>
          Some (PNone, r)
      | r =>
          match number r with
          | Some (n, r') => Some (PInt n, r')
          | None => None
          end
      end
  end
with elements (fuel : nat) (s : list ascii) (acc : list pyval)
  : option (pyval * list ascii) :=
  match fuel with
  | O => None
  | S fuel =>
      match value fuel s with
      | Some (v, r) =>
          match skip_ws r with
          | ","%char :: r' => elements fuel r' (acc ++ [v])
          | "]"%char :: r' => Some (PList (acc ++ [v]), r')
          | _ => None
          end
      | None => None
      end
  end
with members (fuel : nat) (s : list ascii) (acc : list (string * pyval))
  : option (pyval * list ascii) :=
  match fuel with
  | O => None
  | S fuel =>
      match skip_ws s with
      | "034"%char :: r =>
          match str_body r with
          | Some (k, r1) =>
              match skip_ws r1 with
              | ":"%char :: r2 =>
                  match value fuel r2 with
                  | Some (v, r3) =>
                      match skip_ws r3 with
                      | ","%char :: r4 => members fuel r4 (dict_set k v acc)
                      | "}"%char :: r4 => Some (PDict (dict_set k v acc), r4)
                      | _ => None
                      end
                  | None => None
                  end
              | _ => None
              end
          | None => None
          end
      | _ => None
      end
  end.

(** [json.loads]: one value, then only white space. *)
Definition loads (s : string) : option pyval :=
  let l := list_ascii_of_string s in
  match value (S (List.length l)) l with
  | Some (v, r) => match skip_ws r with [] => Some v | _ => None end
  | None => None
  end.

Definition str_of_Z (n : Z) : string :=
  NilZero.string_of_int (Z.to_int n).

Fixpoint escape (s : string) : string :=
  match s with
  | EmptyString => EmptyString
  | String c s' =>
      if Ascii.eqb c dquote || Ascii.eqb c "\"
      then String "\" (String c (escape s'))
      else String c (escape s')
  end.

Definition quoted (s : string) : string :=
  String dquote (escape s +:+ String dquote EmptyString).

(** [json.dumps] with the default separators. *)
Fixpoint dumps (v : pyval) : string :=
  match v with
  | PNone => "null"
  | PBool true => "true"
  | PBool false => "false"
  | PInt n => str_of_Z n
  | PStr s => quoted s
  | PList l =>
      "[" +:+ Str.join ", " (List.map dumps l) +:+ "]"
  | PDict d =>
      "{" +:+ Str.join ", "
                (List.map (fun kv => quoted (fst kv) +:+ ": " +:+ dumps (snd kv)) d)
          +:+ "}"
  end.

End Json.

Definition str_reference (v : pyval) : string :=
  match v with
  | PNone => "None"
  | PBool true => "True"
  | PBool false => "False"
  | _ => Json.dumps v
  end.

(** The reference platform in front of a given remote service.  [str] of a
    container is rendered as JSON text; no example applies it to one. *)
Definition reference (service : list Request -> Request -> urlopen_result)
  : Platform :=
  {| json_loads := Json.loads;
     json_dumps := fun v => Some (Json.dumps v);
     py_str := str_reference;
     urlopen := service |}.

(** ** Sessions and services of the examples *)

Module Ex.

(** A service that gives every request the same outcome. *)
Definition always (r : urlopen_result) : list Request -> Request -> urlopen_result :=
  fun _ _ => r.

(** A session as [login.py] creates it, before [get_token]. *)
Definition bob : User := User_init "bob" "secret" "http://localhost:8001".

(** An access token whose payload segment is the base64 text of the JSON
    object with the single member [exp] = 100. *)
Definition token_exp_100 : string := "h.eyJleHAiOjEwMH0.s".


(** A logged-in session: access token [token_exp_100], refresh token [R]. *)
Definition bob_logged_in : User :=
  set_refresh_token (PStr "R") (set_access_token (PStr token_exp_100) bob).

(** The body of a response that carries a new access token. *)
Definition access_body : string :=
  Json.dumps (PDict [("access", PStr token_exp_100)]).

(** The reference platform in front of a service that grants a token,
    answers with a JSON list, answers 401, or cannot be reached. *)
Definition granting : Platform := reference (always (Response access_body)).
Definition listing : Platform := reference (always (Response "[1]")).
Definition unauthorized : Platform :=
  reference (always (HTTPError 401 "Unauthorized")).
Definition unreachable : Platform :=
  reference (always (URLError "Connection refused")).

(** [bob], logged out, sends a POST with a query parameter. *)
Definition post_with_query : St * res pyval :=
  @request listing "POST" "/api/task/" (PDict []) (Some [("page", "2")])
           None false (World_init 0, bob).

(** The same without query parameters. *)
Definition post_plain : St * res pyval :=
  @request listing "POST" "/api/task/" (PDict []) None None false
           (World_init 0, bob).

(** A raw PUT as [files.py] sends it. *)
Definition put_raw : St * res pyval :=
  @request listing "PUT" "/api/task/t1/file/foam/a.txt/" (PStr "bytes")
           None None true (World_init 0, bob).

(** A GET while the service cannot be reached, and while it answers 401. *)
Definition get_unreachable : St * res pyval :=
  @request unreachable "GET" "/api/task/" PNone None None false
           (World_init 0, bob).

Definition get_unauthorized : St * res pyval :=
  @dispatch unauthorized "GET" "/api/task/" PNone None None false
            (World_init 0, bob).

Definition get_server_error : St * res pyval :=
  @dispatch (reference (always (HTTPError 500 "Unauthorized")))
            "GET" "/api/task/" PNone None None false (World_init 0, bob).

(** [get_token] when the service answers with [access] and no [refresh]. *)
Definition login_without_refresh : St * res pyval :=
  @get_token granting (World_init 0, bob).

(** A second session, logged in, on the same module: it sends a GET with
    an extra header, and then [bob], who holds no token, sends a GET
    without extra headers. *)
Definition alice : User :=
  set_access_token (PStr "T") (User_init "alice" "pw" "http://localhost:8001").

Definition alice_get : St * res pyval :=
  @request listing "GET" "/api/task/" PNone None
           (Some {[ "X-Trace" := "1" ]}) false (World_init 0, alice).

Definition bob_get_after_alice : St * res pyval :=
  @request listing "GET" "/api/task/" PNone None None false
           (fst (fst alice_get), bob).





End Ex.

(** ** The callers: [task.py] and the script of [login.py] *)

(** Every key of the cache has a method whose responses are cached. *)
Definition cache_keys_mutating (w : World) : Prop :=
  forall method url v,
    _RESPONSE_CACHE w !! (method, url) = Some v ->
    caches_response method false = true.

(** [Task.url] of [task.py]; the empty string stands for an absent id. *)
Definition Task_url (task_id : string) : string :=
  "/api/task/"
  +:+ (if negb (String.eqb task_id EmptyString) then task_id +:+ "/"
       else EmptyString).

(** The config [task.py] sends when none is given. *)
Definition empty_config : pyval :=
  PDict [("task_type", PStr "empty"); ("cmd", PStr "empty");
         ("base_dir", PStr "task_id/foam");
         ("cpus", PList [PInt 1; PInt 1; PInt 1])].

Definition bad_task_input : exn :=
  Exception_ "No taskId should be provided for list or create operations".

(** [[i.get('uid') for i in response]] *)
Fixpoint uids (response : list pyval) : res (list pyval) :=
  match response with
  | [] => Ok []
  | i :: rest =>
      let? uid := py_get i "uid" in
      let? more := uids rest in
      Ok (uid :: more)
  end.

(** "If we have response data then output it here": the outputs
    [response] and [task] (the id of the [Task] made, when one is made). *)
Definition task_outputs (response : pyval) : res (pyval * option pyval) :=
  if truthy response then
    match response with
    | PList l => let? _ := uids l in Ok (response, None)
    | PDict d =>
        let taskId := default PNone (dict_lookup "uid" d) in
        Ok (PList [response], if truthy taskId then Some taskId else None)
    | _ => Ok (response, None)
    end
  else Ok (response, None).

Section Callers.

Context `{Platform}.

(** The script of [task.py], from "Check for bad input combinations" on. *)
Definition task_component (operation : string) (do_request : bool)
    (config : pyval) (taskId : string) : M (pyval * option pyval) :=
  if negb (String.eqb taskId EmptyString)
     && (String.eqb operation "list" || String.eqb operation "create")
  then raise bad_task_input
  else
    let config := if negb (truthy config) then empty_config else config in
    let url := Task_url taskId in
    let method := operation_method operation in
    response <-
      (if do_request
       then request method url (PDict [("config", config)]) None None false
       else get_cached_response method url) ;;
    lift (task_outputs response).

(** The module of [login.py] as it is when its script has run down to the
    last lines: an empty [_RESPONSE_CACHE] and the class [User] with its
    [content_header], both made anew. *)
Definition module_loaded (w : World) : World :=
  mkWorld {[ "content-type" := "application/json" ]} ∅ (outbox w) (utcnow w).

(** The script of [login.py]: the session it makes and its [get_token];
    the empty string stands for an absent [server]. *)
Definition login_component (server username password : string) (w : World)
  : St * res pyval :=
  let server :=
    if negb (String.eqb server EmptyString) then server
    else "http://localhost:8001" in
  get_token (module_loaded w, User_init username password server).

End Callers.

(** [u'] differs from [u] in its access token at most. *)
Definition same_but_access (u u' : User) : Prop :=
  host_url u' = host_url u /\ username u' = username u
  /\ password u' = password u /\ _refresh_token u' = _refresh_token u.

(** [w'] has the outbox of [w] with at most [n] requests put before it. *)
Definition sent_at_most (n : nat) (w w' : World) : Prop :=
  exists sent, outbox w' = sent ++ outbox w /\ (List.length sent <= n)%nat.

(** The key under which [request] caches the response of a request of [u]:
    the method and the resolved url with its query string. *)
Definition cache_key (u : User) (method path : string)
    (params : option (list (string * string))) : option (string * string) :=
  match geturl (host_url u) path with
  | Ok url => Some (method, with_params url params)
  | Raise _ => None
  end.

(** The cache [c'] is [c], or [c] with one value put under [key]. *)
Definition wrote_at_most (key : option (string * string))
    (c c' : gmap (string * string) pyval) : Prop :=
  c' = c \/ exists k env, key = Some k /\ c' = <[ k := env ]> c.

(** ** Runs used by the examples of the callers *)

Module Scenes.

Import Ex.

(** An access token with [exp] = 1000, and a service that grants it. *)
Definition token_exp_1000 : string :=
  "h." +:+ Base64.encode (Json.dumps (PDict [("exp", PInt 1000)])) +:+ ".s".

Definition renewing : Platform :=
  reference
    (always (Response (Json.dumps (PDict [("access", PStr token_exp_1000)])))).

(** A service that answers the login with both tokens. *)
Definition logging_in : Platform :=
  reference
    (always (Response (Json.dumps (PDict [("access", PStr token_exp_100);
                                          ("refresh", PStr "R")])))).

(** A service that answers with the details of one task. *)
Definition task_details : pyval := PDict [("uid", PStr "t1")].

Definition serving_task : Platform :=
  reference (always (Response (Json.dumps task_details))).

(** [bob_logged_in] refreshes 10 seconds before expiry. *)
Definition refreshed : St * res pyval :=
  @refresh_token renewing 20 (World_init 90000000, bob_logged_in).

(** [bob] logs in. *)
Definition logged_in : St * res pyval :=
  @get_token logging_in (World_init 0, bob).

(** [bob_logged_in] verifies his token. *)
Definition verified : St * res pyval :=
  @verify_token granting (World_init 0, bob_logged_in).

(** [task.py] creates a task. *)
Definition created : St * res (pyval * option pyval) :=
  @task_component serving_task "create" true PNone EmptyString
                  (World_init 0, bob).

(** After [post_plain], [bob] sends a PUT for one task. *)
Definition put_after_post : St * res pyval :=
  @request listing "PUT" "/api/task/t1/" (PDict []) None None false
           (fst post_plain).

(** [bob_logged_in] sends a GET 10 seconds before expiry, to a service
    that answers everything with the new token. *)
Definition get_refreshing : St * res pyval :=
  @request renewing "GET" "/api/task/" PNone None None false
           (World_init 90000000, bob_logged_in).

(** A session with a refresh token and an access token without a dot. *)
Definition bob_undecodable : User :=
  set_refresh_token (PStr "R") (set_access_token (PStr "garbage") bob).

End Scenes.

(** * Properties *)

(** ** Running [dispatch] *)

Section Dispatch.

Context `{Platform}.

Lemma last_nonempty (s : string) :
  s <> EmptyString -> exists c, Str.last s = Some c.
Proof.
  induction s as [|a s IH]; [congruence|]. intros _.
  destruct s as [|b s]; [by exists a|].
  destruct IH as [c Hc]; [congruence|]. exists c. exact Hc.
Qed.

Lemma geturl_defined (host path : string) :
  host <> EmptyString -> exists url, geturl host path = Ok url.
Proof.
  intros Hne. destruct (last_nonempty host Hne) as [c Hc].
  unfold geturl. rewrite Hc. eauto.
Qed.

Lemma dispatch_run (w : World) (u : User) (method path : string)
    (data : pyval) (params : option (list (string * string)))
    (extra_headers : option (gmap string string)) (sendRaw : bool)
    (url : string) :
  geturl (host_url u) path = Ok url ->
  let rq := outgoing w u method url data params extra_headers sendRaw in
  let w1 := push_outbox rq (set_content_header (req_headers rq) w) in
  dispatch method path data params extra_headers sendRaw (w, u) =
    match envelope (urlopen (outbox w) rq) with
    | Some env =>
        ((if caches_response method sendRaw
          then set_response_cache
                 (<[ (method, req_url rq) := env ]> (_RESPONSE_CACHE w)) w1
          else w1, u), Ok env)
    | None => ((w1, u), Raise (AttributeError "code"))
    end.
Proof.
  intros Hurl rq w1.
  cbv [dispatch headers send set_cached_response bind get_self get_world
       modify_world lift ret raise]. simpl.
  rewrite Hurl. subst rq w1. unfold outgoing. simpl.
  destruct (urlopen _ _) as [b|c b|b]; simpl; try reflexivity;
    destruct (caches_response method sendRaw); reflexivity.
Qed.

Lemma dispatch_no_host (w : World) (u : User) (method path : string)
    (data : pyval) (params : option (list (string * string)))
    (extra_headers : option (gmap string string)) (sendRaw : bool) (e : exn) :
  geturl (host_url u) path = Raise e ->
  dispatch method path data params extra_headers sendRaw (w, u)
  = ((w, u), Raise e).
Proof.
  intros Hurl. cbv [dispatch bind get_self lift]. simpl.
  by rewrite Hurl.
Qed.

(** [dispatch] never writes to the instance. *)
Lemma dispatch_self (s : St) (method path : string)
    (data : pyval) (params : option (list (string * string)))
    (extra_headers : option (gmap string string)) (sendRaw : bool) :
  snd (fst (dispatch method path data params extra_headers sendRaw s)) = snd s.
Proof.
  destruct s as [w u].
  destruct (geturl (host_url u) path) as [url|e] eqn:Hurl.
  - rewrite (dispatch_run _ _ _ _ _ _ _ _ _ Hurl).
    destruct (envelope _); reflexivity.
  - by rewrite (dispatch_no_host _ _ _ _ _ _ _ _ _ Hurl).
Qed.

(** On an authentication endpoint [request] is [dispatch]. *)
Lemma request_auth (method url : string) (data : pyval)
    (params : option (list (string * string)))
    (extra_headers : option (gmap string string)) (sendRaw : bool) (s : St) :
  Str.startswith "/auth-jwt/" url = true ->
  request method url data params extra_headers sendRaw s
  = dispatch method url data params extra_headers sendRaw s.
Proof.
  intros Hp. unfold request. rewrite Hp. reflexivity.
Qed.

End Dispatch.

(** ** Refreshing the access token *)

Section Refresh.

Context `{Platform}.

Lemma refresh_token_fast (w : World) (u : User) (time_remaining : Z)
    (rem : option Z) :
  truthy (_refresh_token u) = true ->
  token_exp_time (utcnow w) u = Ok rem ->
  still_valid rem time_remaining = true ->
  refresh_token time_remaining (w, u) = ((w, u), Ok (token u)).
Proof.
  intros Hrt Hexp Hvalid.
  cbv [refresh_token bind get_self get_world lift ret]. simpl.
  rewrite Hrt. simpl. rewrite Hexp, Hvalid. reflexivity.
Qed.

Lemma refresh_token_slow (w : World) (u : User) (time_remaining : Z)
    (rem : option Z) :
  truthy (_refresh_token u) = true ->
  token_exp_time (utcnow w) u = Ok rem ->
  still_valid rem time_remaining = false ->
  refresh_token time_remaining (w, u)
  = bind (dispatch "POST" "/auth-jwt/refresh/"
                   (PDict [("refresh", _refresh_token u)]) None None false)
         store_access (w, u).
Proof.
  intros Hrt Hexp Hvalid.
  cbv [refresh_token bind get_self get_world lift ret]. simpl.
  rewrite Hrt. simpl. rewrite Hexp, Hvalid. reflexivity.
Qed.

Lemma store_access_run (w : World) (u : User) (env : pyval) :
  store_access env (w, u) =
    match py_getitem env "access" with
    | Ok a =>
        ((w, set_access_token a u),
         match token_exp_time (utcnow w) (set_access_token a u) with
         | Ok _ => Ok a
         | Raise e => Raise e
         end)
    | Raise e => ((w, u), Raise e)
    end.
Proof.
  cbv [store_access bind get_self get_world modify_self lift ret]. simpl.
  destruct (py_getitem env "access") as [a|e]; [|reflexivity].
  destruct (token_exp_time _ _); reflexivity.
Qed.

Lemma still_valid_above (t : Z) :
  20 * 1000000 < t -> still_valid (Some t) 20 = true.
Proof.
  intros Hlt. unfold still_valid.
  destruct (Z.eqb_spec t 0) as [->|_]; [lia|].
  destruct (Z.ltb_spec (20 * 1000000) t); [reflexivity|lia].
Qed.


Lemma refresh_token_idle (w : World) (u : User) (time_remaining : Z) :
  truthy (_refresh_token u) = false ->
  refresh_token time_remaining (w, u) = ((w, u), Ok PNone).
Proof.
  intros Hrt. cbv [refresh_token bind get_self ret]. simpl.
  rewrite Hrt. reflexivity.
Qed.

(** C9: without a refresh token [refresh_token] returns [None] and leaves
    the world, the outbox included, and the instance as they were,
    whatever the access token is. *)
Theorem refresh_token_no_refresh_token (w : World) (u : User)
    (time_remaining : Z) :
  truthy (_refresh_token u) = false ->
  refresh_token time_remaining (w, u) = ((w, u), Ok PNone).
Proof. apply refresh_token_idle. Qed.


End Refresh.

Section Refresh_examples.

Import Ex.


Lemma refresh_token_no_refresh_token_witness :
  @refresh_token granting 20
    (World_init 0, set_access_token (PStr token_exp_100) bob)
  = ((World_init 0, set_access_token (PStr token_exp_100) bob), Ok PNone).
Proof.
  apply (@refresh_token_no_refresh_token granting
           (World_init 0) (set_access_token (PStr token_exp_100) bob) 20).
  reflexivity.
Defined.

End Refresh_examples.

(** ** Responses without an [access] field *)

Section No_access.

Context `{Platform}.

Lemma getitem_without_key (env : pyval) (k : string) :
  has_key env k = false -> exists e, py_getitem env k = Raise e.
Proof.
  destruct env as [| | | | |d]; simpl; eauto.
  destruct (dict_lookup k d); [discriminate|eauto].
Qed.

(** C10: when the response of the refresh request, or of the verify
    request, is not a mapping with an [access] key, the method raises and
    both stored tokens are what they were. *)
Theorem refresh_verify_raise_without_access (w : World) (u : User)
    (time_remaining : Z) (rem : option Z) (s' : St) (env : pyval) :
  has_key env "access" = false ->
  (truthy (_refresh_token u) = true ->
   token_exp_time (utcnow w) u = Ok rem ->
   still_valid rem time_remaining = false ->
   dispatch "POST" "/auth-jwt/refresh/"
            (PDict [("refresh", _refresh_token u)]) None None false (w, u)
   = (s', Ok env) ->
   exists e,
     refresh_token time_remaining (w, u) = (s', Raise e)
     /\ _access_token (snd s') = _access_token u
     /\ _refresh_token (snd s') = _refresh_token u)
  /\
  (request "POST" "/auth-jwt/verify/" (PDict [("token", token u)])
           None None false (w, u)
   = (s', Ok env) ->
   exists e,
     verify_token (w, u) = (s', Raise e)
     /\ _access_token (snd s') = _access_token u
     /\ _refresh_token (snd s') = _refresh_token u).
Proof.
  intros Hkey. destruct (getitem_without_key _ _ Hkey) as [e He].
  split.
  - intros Hrt Hexp Hvalid Hsend.
    pose proof (dispatch_self (w, u) "POST" "/auth-jwt/refresh/"
                  (PDict [("refresh", _refresh_token u)]) None None false)
      as Hself.
    rewrite Hsend in Hself. simpl in Hself.
    exists e. rewrite (refresh_token_slow _ _ _ _ Hrt Hexp Hvalid).
    unfold bind at 1. rewrite Hsend. destruct s' as [w' u'].
    rewrite store_access_run, He. simpl in *. by subst u'.
  - intros Hsend.
    pose proof (dispatch_self (w, u) "POST" "/auth-jwt/verify/"
                  (PDict [("token", token u)]) None None false) as Hself.
    rewrite request_auth in Hsend by reflexivity.
    rewrite Hsend in Hself. simpl in Hself.
    exists e. cbv [verify_token bind get_self]. simpl.
    rewrite request_auth by reflexivity. rewrite Hsend.
    cbv [lift]. rewrite He. destruct s' as [w' u']. simpl in *. by subst u'.
Qed.

End No_access.

Section No_access_examples.

Import Ex.

(** The service answers 401; the envelope is the reason text, a string. *)
Lemma refresh_verify_raise_without_access_witness :
  (exists s' e,
     @refresh_token unauthorized 20 (World_init 90000000, bob_logged_in)
     = (s', Raise e)
     /\ _access_token (snd s') = PStr token_exp_100
     /\ _refresh_token (snd s') = PStr "R")
  /\ (exists s' e,
        @verify_token unauthorized (World_init 90000000, bob_logged_in)
        = (s', Raise e)
        /\ _access_token (snd s') = PStr token_exp_100
        /\ _refresh_token (snd s') = PStr "R").
Proof.
  split.
  - exists (fst (@dispatch unauthorized "POST" "/auth-jwt/refresh/"
                          (PDict [("refresh", PStr "R")]) None None false
                          (World_init 90000000, bob_logged_in))).
    refine (proj1 (@refresh_verify_raise_without_access unauthorized
                     (World_init 90000000) bob_logged_in 20
                     (Some 10000000) _ (PStr "Unauthorized") eq_refl)
                  eq_refl eq_refl eq_refl _).
    vm_compute. reflexivity.
  - exists (fst (@request unauthorized "POST" "/auth-jwt/verify/"
                         (PDict [("token", PStr token_exp_100)])
                         None None false
                         (World_init 90000000, bob_logged_in))).
    refine (proj2 (@refresh_verify_raise_without_access unauthorized
                     (World_init 90000000) bob_logged_in 20
                     None _ (PStr "Unauthorized") eq_refl) _).
    vm_compute. reflexivity.
Defined.

End No_access_examples.

(** ** Remaining time of the access token *)

Section Expiry.

Context `{Platform}.




End Expiry.

Section Expiry_examples.

Import Ex.



End Expiry_examples.

(** ** The response cache *)

Section Cache.

Context `{Platform}.

Lemma refresh_token_host (time_remaining : Z) (s : St) :
  host_url (snd (fst (refresh_token time_remaining s))) = host_url (snd s).
Proof.
  destruct s as [w u].
  destruct (truthy (_refresh_token u)) eqn:Hrt.
  2: { by rewrite refresh_token_idle. }
  destruct (token_exp_time (utcnow w) u) as [rem|e] eqn:Hexp.
  2: { cbv [refresh_token bind get_self get_world lift ret]. simpl.
       rewrite Hrt. simpl. by rewrite Hexp. }
  destruct (still_valid rem time_remaining) eqn:Hvalid.
  { by rewrite (refresh_token_fast _ _ _ _ Hrt Hexp Hvalid). }
  rewrite (refresh_token_slow _ _ _ _ Hrt Hexp Hvalid). unfold bind at 1.
  pose proof (dispatch_self (w, u) "POST" "/auth-jwt/refresh/"
                (PDict [("refresh", _refresh_token u)]) None None false)
    as Hself.
  destruct (dispatch _ _ _ _ _ _ _) as [[w1 u1] [env|e]]; simpl in Hself;
    subst u1; [|reflexivity].
  rewrite store_access_run. by destruct (py_getitem env "access").
Qed.

(** A [request] that returns is a [dispatch] that returns, from a state
    with the same host. *)
Lemma request_returns (method path : string) (data : pyval)
    (params : option (list (string * string)))
    (extra_headers : option (gmap string string)) (sendRaw : bool)
    (s s' : St) (env : pyval) :
  request method path data params extra_headers sendRaw s = (s', Ok env) ->
  exists s1,
    host_url (snd s1) = host_url (snd s)
    /\ dispatch method path data params extra_headers sendRaw s1
       = (s', Ok env).
Proof.
  unfold request.
  destruct (negb (Str.startswith "/auth-jwt/" path)).
  - pose proof (refresh_token_host 20 s) as Hhost.
    cbv [bind ret].
    destruct (refresh_token 20 s) as [s1 [v|e]]; [|discriminate].
    intros Hd. exists s1. by split.
  - cbv [bind ret]. intros Hd. by exists s.
Qed.

(** A [dispatch] that caches and returns has stored what it returns. *)
Lemma dispatch_stores (method path : string) (data : pyval)
    (params : option (list (string * string)))
    (extra_headers : option (gmap string string)) (sendRaw : bool)
    (w : World) (u : User) (s' : St) (env : pyval) :
  caches_response method sendRaw = true ->
  dispatch method path data params extra_headers sendRaw (w, u)
  = (s', Ok env) ->
  exists url,
    geturl (host_url u) path = Ok url
    /\ snd s' = u
    /\ _RESPONSE_CACHE (fst s') !! (method, with_params url params)
       = Some env.
Proof.
  intros Hc.
  destruct (geturl (host_url u) path) as [url|e] eqn:Hurl.
  - rewrite (dispatch_run _ _ _ _ _ _ _ _ _ Hurl), Hc.
    destruct (envelope _) as [env'|]; [|discriminate].
    intros [= <- <-]. exists url. simpl. by rewrite lookup_insert_eq.
  - rewrite (dispatch_no_host _ _ _ _ _ _ _ _ _ Hurl). discriminate.
Qed.

(** A raw [dispatch] leaves the cache as it was. *)
Lemma dispatch_raw_cache (method path : string) (data : pyval)
    (params : option (list (string * string)))
    (extra_headers : option (gmap string string)) (s : St) :
  _RESPONSE_CACHE
    (fst (fst (dispatch method path data params extra_headers true s)))
  = _RESPONSE_CACHE (fst s).
Proof.
  destruct s as [w u].
  destruct (geturl (host_url u) path) as [url|e] eqn:Hurl.
  - rewrite (dispatch_run _ _ _ _ _ _ _ _ _ Hurl).
    replace (caches_response method true) with false
      by (unfold caches_response; by rewrite andb_false_r).
    by destruct (envelope _).
  - by rewrite (dispatch_no_host _ _ _ _ _ _ _ _ _ Hurl).
Qed.

(** C3, as the code has it: a POST, PUT or PATCH request that is not raw
    and has no query parameters, once it has returned, is found again by
    [get_cached_response] with the same method and path, which returns
    the same envelope and sends nothing. *)
Theorem get_cached_response_after_request (method path : string)
    (data : pyval) (params : option (list (string * string)))
    (extra_headers : option (gmap string string))
    (s s' : St) (env : pyval) :
  caches_response method false = true ->
  params = None \/ params = Some [] ->
  request method path data params extra_headers false s = (s', Ok env) ->
  get_cached_response method path s' = (s', Ok env).
Proof.
  intros Hc Hparams Hreq.
  destruct (request_returns _ _ _ _ _ _ _ _ _ Hreq) as ([w1 u1] & Hhost & Hd).
  destruct (dispatch_stores _ _ _ _ _ _ _ _ _ _ Hc Hd)
    as (url & Hurl & Hself & Hcache).
  destruct s' as [w' u']. simpl in *. subst u'.
  cbv [get_cached_response bind get_self get_world lift ret]. simpl.
  rewrite Hurl.
  replace (with_params url params) with url in Hcache
    by (destruct Hparams as [-> | ->]; reflexivity).
  by rewrite Hcache.
Qed.

End Cache.

Section Cache_examples.

Import Ex.

(** A POST with one query parameter is cached under the url with its
    query string; the lookup with the same method and path finds nothing
    and returns [None], not the envelope. *)
Lemma get_cached_response_misses_query :
  snd post_with_query = Ok (PList [PInt 1])
  /\ _RESPONSE_CACHE (fst (fst post_with_query))
       !! ("POST", "http://localhost:8001/api/task/?page=2")
     = Some (PList [PInt 1])
  /\ snd (get_cached_response "POST" "/api/task/" (fst post_with_query))
     = Ok PNone.
Proof. vm_compute. by repeat split. Qed.

Lemma get_cached_response_after_request_witness :
  get_cached_response "POST" "/api/task/" (fst post_plain)
  = (fst post_plain, Ok (PList [PInt 1])).
Proof.
  refine (@get_cached_response_after_request listing
            "POST" "/api/task/" (PDict []) None None (World_init 0, bob)
            (fst post_plain) (PList [PInt 1]) eq_refl (or_introl eq_refl) _).
  vm_compute. reflexivity.
Defined.

(** C4, at a raw PUT as [files.py] sends it: the request returns its
    envelope and the cache holds nothing under its method and url, so the
    lookup [files.py] makes afterwards comes back empty. *)
Theorem raw_put_not_cached :
  snd put_raw = Ok (PList [PInt 1])
  /\ _RESPONSE_CACHE (fst (fst put_raw))
       !! ("PUT", "http://localhost:8001/api/task/t1/file/foam/a.txt/")
     = None
  /\ snd (get_cached_response "PUT" "/api/task/t1/file/foam/a.txt/"
                              (fst put_raw))
     = Ok PNone.
Proof. vm_compute. by repeat split. Qed.

End Cache_examples.

(** ** Failures of the exchange *)

Section Failures.

Context `{Platform}.

(** C5, as the code has it: when the exchange of a request ends in an
    HTTP error, an [HTTPError] with its status code and reason, nothing is
    raised; the envelope is the reason text, parsed as JSON when it
    parses, and the status code is not part of it. *)
Theorem dispatch_returns_http_error_reason (w : World) (u : User)
    (method path : string) (data : pyval)
    (params : option (list (string * string)))
    (extra_headers : option (gmap string string)) (sendRaw : bool)
    (url : string) (code : Z) (reason : string) :
  geturl (host_url u) path = Ok url ->
  urlopen (outbox w)
          (outgoing w u method url data params extra_headers sendRaw)
  = HTTPError code reason ->
  snd (dispatch method path data params extra_headers sendRaw (w, u))
  = Ok (parse_response reason).
Proof.
  intros Hurl Hnet. rewrite (dispatch_run _ _ _ _ _ _ _ _ _ Hurl), Hnet.
  reflexivity.
Qed.

End Failures.

Section Failures_examples.

Import Ex.

(** The service cannot be reached: [urlopen] raises a [URLError], the
    handler reads its [code], and the request raises.  The service answers
    401, or 500 with the same reason: the envelope is the reason text in
    both cases, so the status is not in it. *)
Lemma request_raises_when_unreachable :
  snd get_unreachable = Raise (AttributeError "code")
  /\ snd get_unauthorized = Ok (PStr "Unauthorized")
  /\ snd get_server_error = Ok (PStr "Unauthorized").
Proof. vm_compute. by repeat split. Qed.

Lemma dispatch_returns_http_error_reason_witness :
  snd get_unauthorized = Ok (PStr "Unauthorized").
Proof.
  refine (@dispatch_returns_http_error_reason unauthorized
            (World_init 0) bob "GET" "/api/task/" PNone None None false
            "http://localhost:8001/api/task/" 401 "Unauthorized" _ _);
    reflexivity.
Defined.

End Failures_examples.

(** ** Login *)

Section Login_examples.

Import Ex.

(** C6, at a login response with [access] and without [refresh]: the
    login raises, and the session is left holding the access token of the
    response, with [None] as its refresh token. *)
Theorem get_token_keeps_access_on_failure :
  snd login_without_refresh = Raise login_failed
  /\ _access_token (snd (fst login_without_refresh)) = PStr token_exp_100
  /\ _refresh_token (snd (fst login_without_refresh)) = PNone.
Proof. vm_compute. by repeat split. Qed.

End Login_examples.

(** ** Headers *)

Section Headers_examples.

Import Ex.

(** C8, at two sessions of one module: the request of [bob], who holds no
    access token and passes no extra headers, goes out with the
    [Authorization] of [alice] and with the extra header of her request. *)
Theorem headers_leak_across_requests :
  truthy (token bob) = false
  /\ exists r,
       head (outbox (fst (fst bob_get_after_alice))) = Some r
       /\ req_headers r !! "content-type" = Some "application/json"
       /\ req_headers r !! "Authorization" = Some "JWT T"
       /\ req_headers r !! "X-Trace" = Some "1".
Proof.
  split; [reflexivity|].
  eexists. split; [vm_compute; reflexivity|].
  vm_compute. by repeat split.
Qed.

End Headers_examples.

(** ** Decoding the payload segment *)

Section Base64_roundtrip.

Import Base64.
Local Open Scope N_scope.

Example encode_braces : encode "{}" = "e30".
Proof. reflexivity. Qed.

Example encode_Man : encode "Man" = "TWFu".
Proof. reflexivity. Qed.

Example encode_Ma : encode "Ma" = "TWE".
Proof. reflexivity. Qed.

Example b64decode_ignores_stray : b64decode "e!30====" = Ok "{}".
Proof. reflexivity. Qed.


















End Base64_roundtrip.


Section Payload.

Context `{Platform}.

Lemma split_single_empty (tok h seg : string) (rest : list string) :
  Str.split "." tok = h :: seg :: rest -> truthy (PStr tok) = true.
Proof. destruct tok; [discriminate|reflexivity]. Qed.



End Payload.

Section Payload_examples.

Import Ex.



End Payload_examples.

(** * Further properties *)

(** ** Every run of a method, as one expression *)

Section Runs.

Context `{Platform}.

Lemma dispatch_eq (w : World) (u : User) (method path : string)
    (data : pyval) (params : option (list (string * string)))
    (extra_headers : option (gmap string string)) (sendRaw : bool) :
  dispatch method path data params extra_headers sendRaw (w, u) =
    match geturl (host_url u) path with
    | Raise e => ((w, u), Raise e)
    | Ok url =>
        let rq := outgoing w u method url data params extra_headers sendRaw in
        let w1 := push_outbox rq (set_content_header (req_headers rq) w) in
        match envelope (urlopen (outbox w) rq) with
        | Some env =>
            ((if caches_response method sendRaw
              then set_response_cache
                     (<[ (method, req_url rq) := env ]> (_RESPONSE_CACHE w)) w1
              else w1, u), Ok env)
        | None => ((w1, u), Raise (AttributeError "code"))
        end
    end.
Proof.
  destruct (geturl (host_url u) path) as [url|e] eqn:Hurl.
  - by rewrite (dispatch_run _ _ _ _ _ _ _ _ _ Hurl).
  - by rewrite (dispatch_no_host _ _ _ _ _ _ _ _ _ Hurl).
Qed.

Lemma refresh_token_eq (time_remaining : Z) (w : World) (u : User) :
  refresh_token time_remaining (w, u) =
    if negb (truthy (_refresh_token u)) then ((w, u), Ok PNone)
    else
      match token_exp_time (utcnow w) u with
      | Raise e => ((w, u), Raise e)
      | Ok exp_time =>
          if still_valid exp_time time_remaining then ((w, u), Ok (token u))
          else
            match dispatch "POST" "/auth-jwt/refresh/"
                           (PDict [("refresh", _refresh_token u)])
                           None None false (w, u) with
            | (s1, Ok env) => store_access env s1
            | (s1, Raise e) => (s1, Raise e)
            end
      end.
Proof.
  cbv [refresh_token bind get_self get_world lift ret]. simpl.
  destruct (truthy (_refresh_token u)); simpl; [|reflexivity].
  destruct (token_exp_time (utcnow w) u) as [rem|e]; [|reflexivity].
  destruct (still_valid rem time_remaining); reflexivity.
Qed.

Lemma request_eq (method path : string) (data : pyval)
    (params : option (list (string * string)))
    (extra_headers : option (gmap string string)) (sendRaw : bool) (s : St) :
  request method path data params extra_headers sendRaw s =
    if Str.startswith "/auth-jwt/" path
    then dispatch method path data params extra_headers sendRaw s
    else
      match refresh_token 20 s with
      | (s1, Ok _) => dispatch method path data params extra_headers sendRaw s1
      | (s1, Raise e) => (s1, Raise e)
      end.
Proof.
  unfold request. destruct (Str.startswith "/auth-jwt/" path); simpl.
  - reflexivity.
  - cbv [bind ret]. by destruct (refresh_token 20 s) as [s1 [v|e]].
Qed.

Lemma verify_token_eq (w : World) (u : User) :
  verify_token (w, u) =
    match dispatch "POST" "/auth-jwt/verify/" (PDict [("token", token u)])
                   None None false (w, u) with
    | (s1, Ok env) =>
        match py_getitem env "access" with
        | Ok a => ((fst s1, set_access_token a (snd s1)), Ok a)
        | Raise e => (s1, Raise e)
        end
    | (s1, Raise e) => (s1, Raise e)
    end.
Proof.
  cbv [verify_token bind get_self]. simpl.
  rewrite request_auth by reflexivity.
  destruct (dispatch _ _ _ _ _ _ _) as [[w1 u1] [env|e]]; [|reflexivity].
  cbv [lift modify_self ret]. simpl.
  by destruct (py_getitem env "access").
Qed.

Lemma get_token_eq (w : World) (u : User) :
  get_token (w, u) =
    let u0 := set_refresh_token (PStr EmptyString)
                (set_access_token (PStr EmptyString) u) in
    match dispatch "POST" "/auth-jwt/get/"
                   (PDict [("username", PStr (username u));
                           ("password", PStr (password u))])
                   None None false (w, u0) with
    | (s1, Raise e) => (s1, Raise e)
    | (s1, Ok env) =>
        match env with
        | PDict d =>
            let access := default PNone (dict_lookup "access" d) in
            let refresh := default PNone (dict_lookup "refresh" d) in
            let u2 := set_refresh_token refresh
                        (set_access_token access (snd s1)) in
            match access, refresh with
            | PNone, _ | _, PNone => ((fst s1, u2), Raise login_failed)
            | _, _ =>
                match token_exp_time (utcnow (fst s1)) u2 with
                | Ok _ => ((fst s1, u2), Ok access)
                | Raise e => ((fst s1, u2), Raise e)
                end
            end
        | _ => (s1, Raise (AttributeError "get"))
        end
    end.
Proof.
  cbv [get_token clear_tokens bind get_self get_world modify_self]. simpl.
  rewrite request_auth by reflexivity.
  destruct (dispatch _ _ _ _ _ _ _) as [[w1 u1] [env|e]]; [|reflexivity].
  destruct env as [| | | | |d]; try reflexivity.
  cbv [lift ret raise py_get]. simpl.
  destruct (default PNone (dict_lookup "access" d)) eqn:Ha;
    destruct (default PNone (dict_lookup "refresh" d)) eqn:Hr;
    try reflexivity;
    by destruct (token_exp_time _ _).
Qed.

End Runs.


(** ** What the methods keep *)

Section Keeps.

Context `{Platform}.

Lemma same_but_access_refl (u : User) : same_but_access u u.
Proof. by repeat split. Qed.

Lemma same_but_access_set (a : pyval) (u : User) :
  same_but_access u (set_access_token a u).
Proof. by repeat split. Qed.

Lemma same_but_access_trans (u1 u2 u3 : User) :
  same_but_access u1 u2 -> same_but_access u2 u3 -> same_but_access u1 u3.
Proof.
  intros (? & ? & ? & ?) (? & ? & ? & ?). repeat split; congruence.
Qed.

Lemma store_access_keeps (env : pyval) (s : St) :
  fst (fst (store_access env s)) = fst s
  /\ same_but_access (snd s) (snd (fst (store_access env s))).
Proof.
  destruct s as [w u]. rewrite store_access_run.
  destruct (py_getitem env "access"); simpl; split; try reflexivity;
    auto using same_but_access_refl, same_but_access_set.
Qed.

Lemma refresh_token_keeps (time_remaining : Z) (s : St) :
  same_but_access (snd s) (snd (fst (refresh_token time_remaining s))).
Proof.
  destruct s as [w u]. rewrite refresh_token_eq.
  destruct (negb (truthy (_refresh_token u))); [apply same_but_access_refl|].
  destruct (token_exp_time (utcnow w) u) as [rem|e];
    [|apply same_but_access_refl].
  destruct (still_valid rem time_remaining); [apply same_but_access_refl|].
  pose proof (dispatch_self (w, u) "POST" "/auth-jwt/refresh/"
                (PDict [("refresh", _refresh_token u)]) None None false)
    as Hs.
  destruct (dispatch _ _ _ _ _ _ _) as [[w1 u1] [env|e]]; simpl in Hs;
    subst u1; [|apply same_but_access_refl].
  apply (store_access_keeps env (w1, u)).
Qed.

Lemma request_keeps (method path : string) (data : pyval)
    (params : option (list (string * string)))
    (extra_headers : option (gmap string string)) (sendRaw : bool) (s : St) :
  same_but_access
    (snd s)
    (snd (fst (request method path data params extra_headers sendRaw s))).
Proof.
  rewrite request_eq. destruct (Str.startswith "/auth-jwt/" path).
  - rewrite dispatch_self. apply same_but_access_refl.
  - pose proof (refresh_token_keeps 20 s) as Hr.
    destruct (refresh_token 20 s) as [s1 [v|e]]; simpl in *.
    + by rewrite dispatch_self.
    + exact Hr.
Qed.

Lemma verify_token_keeps (s : St) :
  same_but_access (snd s) (snd (fst (verify_token s))).
Proof.
  destruct s as [w u]. rewrite verify_token_eq.
  pose proof (dispatch_self (w, u) "POST" "/auth-jwt/verify/"
                (PDict [("token", token u)]) None None false) as Hs.
  destruct (dispatch _ _ _ _ _ _ _) as [[w1 u1] [env|e]]; simpl in *; subst.
  - destruct (py_getitem env "access"); simpl;
      auto using same_but_access_refl, same_but_access_set.
  - apply same_but_access_refl.
Qed.

(** X1: [request], [refresh_token] and [verify_token] never change the host,
    the credentials or the refresh token of the session. *)
Theorem refresh_token_never_rotated (method path : string) (data : pyval)
    (params : option (list (string * string)))
    (extra_headers : option (gmap string string)) (sendRaw : bool)
    (time_remaining : Z) (s : St) :
  same_but_access
    (snd s)
    (snd (fst (request method path data params extra_headers sendRaw s)))
  /\ same_but_access (snd s) (snd (fst (refresh_token time_remaining s)))
  /\ same_but_access (snd s) (snd (fst (verify_token s))).
Proof.
  auto using request_keeps, refresh_token_keeps, verify_token_keeps.
Qed.

End Keeps.


(** ** What the methods send *)

Section Sends.

Context `{Platform}.

Lemma sent_at_most_refl (n : nat) (w : World) : sent_at_most n w w.
Proof. exists []. split; [reflexivity|simpl; lia]. Qed.

Lemma sent_at_most_trans (n m : nat) (w1 w2 w3 : World) :
  sent_at_most n w1 w2 -> sent_at_most m w2 w3 ->
  sent_at_most (n + m) w1 w3.
Proof.
  intros (l1 & E1 & L1) (l2 & E2 & L2). exists (l2 ++ l1). split.
  - by rewrite E2, E1, app_assoc.
  - rewrite length_app. lia.
Qed.

Lemma dispatch_sends (method path : string) (data : pyval)
    (params : option (list (string * string)))
    (extra_headers : option (gmap string string)) (sendRaw : bool) (s : St) :
  sent_at_most
    1 (fst s)
    (fst (fst (dispatch method path data params extra_headers sendRaw s))).
Proof.
  destruct s as [w u]. rewrite dispatch_eq.
  destruct (geturl (host_url u) path) as [url|e]; [|apply sent_at_most_refl].
  simpl. destruct (envelope _); [destruct (caches_response method sendRaw)|];
    (eexists [_]; split; [reflexivity|simpl; lia]).
Qed.

Lemma refresh_token_sends (time_remaining : Z) (s : St) :
  sent_at_most 1 (fst s) (fst (fst (refresh_token time_remaining s))).
Proof.
  destruct s as [w u]. rewrite refresh_token_eq.
  destruct (negb (truthy (_refresh_token u))); [apply sent_at_most_refl|].
  destruct (token_exp_time (utcnow w) u) as [rem|e];
    [|apply sent_at_most_refl].
  destruct (still_valid rem time_remaining); [apply sent_at_most_refl|].
  pose proof (dispatch_sends "POST" "/auth-jwt/refresh/"
                (PDict [("refresh", _refresh_token u)]) None None false (w, u))
    as Hs.
  destruct (dispatch _ _ _ _ _ _ _) as [s1 [env|e]]; simpl in Hs;
    [|exact Hs].
  by rewrite (proj1 (store_access_keeps env s1)).
Qed.

Lemma request_sends (method path : string) (data : pyval)
    (params : option (list (string * string)))
    (extra_headers : option (gmap string string)) (sendRaw : bool) (s : St) :
  sent_at_most
    2 (fst s)
    (fst (fst (request method path data params extra_headers sendRaw s))).
Proof.
  rewrite request_eq. destruct (Str.startswith "/auth-jwt/" path).
  - apply (sent_at_most_trans 1 1 _ (fst s)); [apply sent_at_most_refl|].
    apply dispatch_sends.
  - pose proof (refresh_token_sends 20 s) as Hr.
    destruct (refresh_token 20 s) as [s1 [v|e]]; simpl in Hr.
    + apply (sent_at_most_trans 1 1 _ (fst s1)); [exact Hr|].
      apply dispatch_sends.
    + simpl. apply (sent_at_most_trans 1 1 _ (fst s1)); [exact Hr|].
      apply sent_at_most_refl.
Qed.

Lemma verify_token_sends (s : St) :
  sent_at_most 1 (fst s) (fst (fst (verify_token s))).
Proof.
  destruct s as [w u]. rewrite verify_token_eq.
  pose proof (dispatch_sends "POST" "/auth-jwt/verify/"
                (PDict [("token", token u)]) None None false (w, u)) as Hs.
  destruct (dispatch _ _ _ _ _ _ _) as [[w1 u1] [env|e]]; simpl in *;
    [|exact Hs].
  by destruct (py_getitem env "access").
Qed.

Lemma get_token_sends (s : St) :
  sent_at_most 1 (fst s) (fst (fst (get_token s))).
Proof.
  destruct s as [w u]. rewrite get_token_eq. simpl.
  match goal with
  | |- context [dispatch ?m ?p ?d ?ps ?ex ?raw ?s0] =>
      pose proof (dispatch_sends m p d ps ex raw s0) as Hs;
      destruct (dispatch m p d ps ex raw s0) as [[w1 u1] [env|e]]
  end; simpl in *; [|exact Hs].
  repeat case_match; exact Hs.
Qed.

(** X2: no method retries.  A [request] hands at most two requests to
    [urlopen], the refresh and its own, and [refresh_token],
    [verify_token] and [get_token] at most one; the requests sent earlier
    stay in the outbox behind them. *)
Theorem methods_send_at_most (method path : string) (data : pyval)
    (params : option (list (string * string)))
    (extra_headers : option (gmap string string)) (sendRaw : bool)
    (time_remaining : Z) (s : St) :
  sent_at_most
    2 (fst s)
    (fst (fst (request method path data params extra_headers sendRaw s)))
  /\ sent_at_most 1 (fst s) (fst (fst (refresh_token time_remaining s)))
  /\ sent_at_most 1 (fst s) (fst (fst (verify_token s)))
  /\ sent_at_most 1 (fst s) (fst (fst (get_token s))).
Proof.
  auto using request_sends, refresh_token_sends, verify_token_sends,
    get_token_sends.
Qed.

End Sends.


(** ** What the methods do to the cache *)

Section Cache_steps.

Context `{Platform}.

Lemma caches_response_method (method : string) (sendRaw : bool) :
  caches_response method sendRaw = true -> caches_response method false = true.
Proof.
  unfold caches_response. intros Hc.
  apply andb_true_iff in Hc as [Hm _]. by rewrite Hm.
Qed.

Lemma cache_key_host (u u' : User) (method path : string)
    (params : option (list (string * string))) :
  same_but_access u u' ->
  cache_key u' method path params = cache_key u method path params.
Proof. intros (Hh & _). unfold cache_key. by rewrite Hh. Qed.

Lemma dispatch_cache (method path : string) (data : pyval)
    (params : option (list (string * string)))
    (extra_headers : option (gmap string string)) (sendRaw : bool) (s : St) :
  wrote_at_most
    (if caches_response method sendRaw
     then cache_key (snd s) method path params else None)
    (_RESPONSE_CACHE (fst s))
    (_RESPONSE_CACHE
       (fst (fst (dispatch method path data params extra_headers sendRaw s)))).
Proof.
  destruct s as [w u]. rewrite dispatch_eq. unfold cache_key. simpl.
  destruct (geturl (host_url u) path) as [url|e]; [|by left].
  simpl. destruct (envelope _) as [env|]; [|by left].
  destruct (caches_response method sendRaw); [|by left].
  right. by exists (method, with_params url params), env.
Qed.

Lemma refresh_token_cache (time_remaining : Z) (s : St) :
  wrote_at_most
    (cache_key (snd s) "POST" "/auth-jwt/refresh/" None)
    (_RESPONSE_CACHE (fst s))
    (_RESPONSE_CACHE (fst (fst (refresh_token time_remaining s)))).
Proof.
  destruct s as [w u]. rewrite refresh_token_eq.
  destruct (negb (truthy (_refresh_token u))); [by left|].
  destruct (token_exp_time (utcnow w) u) as [rem|e]; [|by left].
  destruct (still_valid rem time_remaining); [by left|].
  pose proof (dispatch_cache "POST" "/auth-jwt/refresh/"
                (PDict [("refresh", _refresh_token u)]) None None false (w, u))
    as Hc.
  destruct (dispatch _ _ _ _ _ _ _) as [s1 [env|e]]; simpl in Hc;
    [|exact Hc].
  by rewrite (proj1 (store_access_keeps env s1)).
Qed.

Lemma verify_token_cache (s : St) :
  wrote_at_most
    (cache_key (snd s) "POST" "/auth-jwt/verify/" None)
    (_RESPONSE_CACHE (fst s))
    (_RESPONSE_CACHE (fst (fst (verify_token s)))).
Proof.
  destruct s as [w u]. rewrite verify_token_eq.
  pose proof (dispatch_cache "POST" "/auth-jwt/verify/"
                (PDict [("token", token u)]) None None false (w, u)) as Hc.
  destruct (dispatch _ _ _ _ _ _ _) as [[w1 u1] [env|e]]; simpl in *;
    [|exact Hc].
  by destruct (py_getitem env "access").
Qed.

Lemma get_token_cache (s : St) :
  wrote_at_most
    (cache_key (snd s) "POST" "/auth-jwt/get/" None)
    (_RESPONSE_CACHE (fst s))
    (_RESPONSE_CACHE (fst (fst (get_token s)))).
Proof.
  destruct s as [w u]. rewrite get_token_eq. simpl.
  match goal with
  | |- context [dispatch ?m ?p ?d ?ps ?ex ?raw ?s0] =>
      pose proof (dispatch_cache m p d ps ex raw s0) as Hc;
      destruct (dispatch m p d ps ex raw s0) as [[w1 u1] [env|e]]
  end; simpl in *; [|exact Hc].
  repeat case_match; exact Hc.
Qed.

(** The keys of a cache after one write. *)
Lemma wrote_at_most_keys (key : option (string * string))
    (c c' : gmap (string * string) pyval) (P : string * string -> Prop) :
  wrote_at_most key c c' ->
  (forall k, key = Some k -> P k) ->
  (forall k v, c !! k = Some v -> P k) ->
  forall k v, c' !! k = Some v -> P k.
Proof.
  intros [->|(k0 & env & Hk & ->)] Hkey Hc k v Hl; [eauto|].
  destruct (decide (k0 = k)) as [<-|Hne]; [eauto|].
  rewrite lookup_insert_ne in Hl by done. eauto.
Qed.

Lemma wrote_at_most_keeps (key : option (string * string))
    (c c' : gmap (string * string) pyval) (k : string * string) :
  wrote_at_most key c c' -> is_Some (c !! k) -> is_Some (c' !! k).
Proof.
  intros [->|(k0 & env & Hk & ->)] Hs; [done|].
  destruct (decide (k0 = k)) as [<-|Hne].
  - rewrite lookup_insert_eq. eauto.
  - by rewrite lookup_insert_ne.
Qed.

Lemma wrote_at_most_frame (key : option (string * string))
    (c c' : gmap (string * string) pyval) (k : string * string) :
  wrote_at_most key c c' -> key <> Some k -> c' !! k = c !! k.
Proof.
  intros [->|(k0 & env & Hk & ->)] Hne; [done|].
  apply lookup_insert_ne. congruence.
Qed.

End Cache_steps.


Section Cache_facts.

Context `{Platform}.

Lemma cache_key_method (u : User) (method path : string)
    (params : option (list (string * string))) (k : string * string) :
  cache_key u method path params = Some k -> fst k = method.
Proof.
  unfold cache_key. destruct (geturl _ _); [|discriminate].
  by intros [= <-].
Qed.

(** The cache after a [request]: at most the refresh response and then
    the response of the request itself were put in. *)
Lemma request_cache (method path : string) (data : pyval)
    (params : option (list (string * string)))
    (extra_headers : option (gmap string string)) (sendRaw : bool) (s : St) :
  exists c1,
    wrote_at_most
      (if Str.startswith "/auth-jwt/" path then None
       else cache_key (snd s) "POST" "/auth-jwt/refresh/" None)
      (_RESPONSE_CACHE (fst s)) c1
    /\ wrote_at_most
         (if caches_response method sendRaw
          then cache_key (snd s) method path params else None)
         c1
         (_RESPONSE_CACHE
            (fst (fst (request method path data params extra_headers
                               sendRaw s)))).
Proof.
  rewrite request_eq. destruct (Str.startswith "/auth-jwt/" path).
  - exists (_RESPONSE_CACHE (fst s)). split; [by left|apply dispatch_cache].
  - pose proof (refresh_token_cache 20 s) as Hr.
    pose proof (refresh_token_keeps 20 s) as Hk.
    destruct (refresh_token 20 s) as [s1 [v|e]]; simpl in Hr, Hk.
    + exists (_RESPONSE_CACHE (fst s1)). split; [exact Hr|].
      rewrite <- (cache_key_host _ _ method path params Hk).
      apply dispatch_cache.
    + exists (_RESPONSE_CACHE (fst s1)). split; [exact Hr|by left].
Qed.

Lemma refresh_key_caches (u : User) (path : string) (k : string * string) :
  (if Str.startswith "/auth-jwt/" path then None
   else cache_key u "POST" "/auth-jwt/refresh/" None) = Some k ->
  caches_response (fst k) false = true.
Proof.
  destruct (Str.startswith "/auth-jwt/" path); [discriminate|].
  intros Hk. by rewrite (cache_key_method _ _ _ _ _ Hk).
Qed.

Lemma keys_after_write (key : option (string * string))
    (c c' : gmap (string * string) pyval) :
  wrote_at_most key c c' ->
  (forall k, key = Some k -> caches_response (fst k) false = true) ->
  (forall method url v,
     c !! (method, url) = Some v -> caches_response method false = true) ->
  forall method url v,
    c' !! (method, url) = Some v -> caches_response method false = true.
Proof.
  intros Hw Hkey Hc method url v Hl.
  apply (wrote_at_most_keys key c c'
           (fun k => caches_response (fst k) false = true) Hw Hkey
           (fun k => match k with (m, u) => Hc m u end)
           (method, url) v Hl).
Qed.

Lemma own_key_caches (u : User) (method path : string)
    (params : option (list (string * string))) (sendRaw : bool)
    (k : string * string) :
  (if caches_response method sendRaw
   then cache_key u method path params else None) = Some k ->
  caches_response (fst k) false = true.
Proof.
  destruct (caches_response method sendRaw) eqn:Hc; [|discriminate].
  intros Hk. rewrite (cache_key_method _ _ _ _ _ Hk).
  by apply caches_response_method in Hc.
Qed.

Lemma post_key_caches (u : User) (path : string) (k : string * string) :
  cache_key u "POST" path None = Some k ->
  caches_response (fst k) false = true.
Proof. intros Hk. by rewrite (cache_key_method _ _ _ _ _ Hk). Qed.

(** X3: every key of the cache has the method POST, PUT or PATCH, before
    and after every method. *)
Theorem cache_keys_stay_mutating (method path : string) (data : pyval)
    (params : option (list (string * string)))
    (extra_headers : option (gmap string string)) (sendRaw : bool)
    (time_remaining : Z) (s : St) :
  cache_keys_mutating (fst s) ->
  cache_keys_mutating
    (fst (fst (request method path data params extra_headers sendRaw s)))
  /\ cache_keys_mutating (fst (fst (refresh_token time_remaining s)))
  /\ cache_keys_mutating (fst (fst (verify_token s)))
  /\ cache_keys_mutating (fst (fst (get_token s))).
Proof.
  intros Hinv. unfold cache_keys_mutating in *. repeat split.
  - destruct (request_cache method path data params extra_headers sendRaw s)
      as (c1 & H1 & H2).
    eapply keys_after_write; [exact H2|apply own_key_caches|].
    eapply keys_after_write; [exact H1|apply refresh_key_caches|exact Hinv].
  - eapply keys_after_write;
      [apply refresh_token_cache|apply post_key_caches|exact Hinv].
  - eapply keys_after_write;
      [apply verify_token_cache|apply post_key_caches|exact Hinv].
  - eapply keys_after_write;
      [apply get_token_cache|apply post_key_caches|exact Hinv].
Qed.

(** X4: no method removes an entry of the cache. *)
Theorem cache_never_evicts (method path : string) (data : pyval)
    (params : option (list (string * string)))
    (extra_headers : option (gmap string string)) (sendRaw : bool)
    (time_remaining : Z) (s : St) (k : string * string) :
  is_Some (_RESPONSE_CACHE (fst s) !! k) ->
  is_Some (_RESPONSE_CACHE
             (fst (fst (request method path data params extra_headers
                                sendRaw s))) !! k)
  /\ is_Some (_RESPONSE_CACHE (fst (fst (refresh_token time_remaining s))) !! k)
  /\ is_Some (_RESPONSE_CACHE (fst (fst (verify_token s))) !! k)
  /\ is_Some (_RESPONSE_CACHE (fst (fst (get_token s))) !! k).
Proof.
  intros Hk. repeat split.
  - destruct (request_cache method path data params extra_headers sendRaw s)
      as (c1 & H1 & H2).
    eauto using wrote_at_most_keeps.
  - eauto using wrote_at_most_keeps, refresh_token_cache.
  - eauto using wrote_at_most_keeps, verify_token_cache.
  - eauto using wrote_at_most_keeps, get_token_cache.
Qed.

Lemma request_cache_frame (method path : string) (data : pyval)
    (params : option (list (string * string)))
    (extra_headers : option (gmap string string)) (sendRaw : bool)
    (s : St) (k : string * string) :
  cache_key (snd s) method path params <> Some k ->
  (if Str.startswith "/auth-jwt/" path then None
   else cache_key (snd s) "POST" "/auth-jwt/refresh/" None) <> Some k ->
  _RESPONSE_CACHE
    (fst (fst (request method path data params extra_headers sendRaw s))) !! k
  = _RESPONSE_CACHE (fst s) !! k.
Proof.
  intros Hown Hrefresh.
  destruct (request_cache method path data params extra_headers sendRaw s)
    as (c1 & H1 & H2).
  rewrite (wrote_at_most_frame _ _ _ k H2).
  - by apply (wrote_at_most_frame _ _ _ k H1).
  - by destruct (caches_response method sendRaw).
Qed.

(** X5: a [request] changes the cache under its own key and under the key
    of the refresh request, and nowhere else. *)
Theorem request_cache_elsewhere (method path : string) (data : pyval)
    (params : option (list (string * string)))
    (extra_headers : option (gmap string string)) (sendRaw : bool)
    (s : St) (k : string * string) :
  cache_key (snd s) method path params <> Some k ->
  cache_key (snd s) "POST" "/auth-jwt/refresh/" None <> Some k ->
  _RESPONSE_CACHE
    (fst (fst (request method path data params extra_headers sendRaw s))) !! k
  = _RESPONSE_CACHE (fst s) !! k.
Proof.
  intros Hown Hrefresh. apply request_cache_frame; [exact Hown|].
  by destruct (Str.startswith "/auth-jwt/" path).
Qed.

(** X6: a lookup with a method that is not cached, GET for one, finds
    nothing and changes nothing. *)
Theorem get_cached_response_not_mutating (w : World) (u : User)
    (method path : string) :
  cache_keys_mutating w ->
  caches_response method false = false ->
  host_url u <> EmptyString ->
  get_cached_response method path (w, u) = ((w, u), Ok PNone).
Proof.
  intros Hinv Hm Hhost.
  destruct (geturl_defined (host_url u) path Hhost) as [url Hurl].
  cbv [get_cached_response bind get_self get_world lift ret]. simpl.
  rewrite Hurl.
  destruct (_RESPONSE_CACHE w !! (method, url)) as [v|] eqn:Hl; [|reflexivity].
  apply Hinv in Hl. congruence.
Qed.

End Cache_facts.


(** ** Resolved urls *)

Section Urls.

Context `{Platform}.

Lemma append_cons (c : ascii) (s t : string) :
  String c s +:+ t = String c (s +:+ t).
Proof. reflexivity. Qed.

Lemma append_nil_r (s : string) : s +:+ EmptyString = s.
Proof.
  induction s as [|c s IH]; [reflexivity|]. by rewrite append_cons, IH.
Qed.

Lemma append_assoc (a b c : string) : (a +:+ b) +:+ c = a +:+ (b +:+ c).
Proof.
  induction a as [|x a IH]; [reflexivity|]. by rewrite !append_cons, IH.
Qed.

Lemma append_inj_l (s a b : string) : s +:+ a = s +:+ b -> a = b.
Proof.
  induction s as [|c s IH]; [done|]. rewrite !append_cons.
  intros [= Hs]. by apply IH.
Qed.

Lemma append_cons_nonempty (a b : string) (c : ascii) :
  a +:+ String c b <> EmptyString.
Proof. by destruct a. Qed.

Lemma last_snoc (s : string) (c : ascii) :
  Str.last (s +:+ String c EmptyString) = Some c.
Proof.
  induction s as [|a s IH]; [reflexivity|].
  rewrite append_cons. simpl.
  destruct (s +:+ String c EmptyString) eqn:E; [|exact IH].
  by destruct s.
Qed.

Lemma init_snoc (s : string) (c : ascii) :
  Str.init (s +:+ String c EmptyString) = s.
Proof.
  induction s as [|a s IH]; [reflexivity|].
  rewrite append_cons. simpl.
  destruct (s +:+ String c EmptyString) eqn:E.
  - by destruct s.
  - by rewrite IH.
Qed.

(** The part of the host that every resolved url starts with. *)
Lemma geturl_base (host : string) :
  host <> EmptyString ->
  exists base, forall path, geturl host path = Ok (base +:+ path).
Proof.
  intros Hne. destruct (last_nonempty host Hne) as [c Hc].
  exists (if Ascii.eqb c "/" then Str.init host else host).
  intros path. unfold geturl. by rewrite Hc.
Qed.

(** X8: [geturl] takes one trailing slash off the host, and only one; a
    host without one is used as it is; the empty host raises. *)
Theorem geturl_trailing_slash (host path : string) :
  geturl (host +:+ "/") path = Ok (host +:+ path)
  /\ geturl (host +:+ "//") path = Ok (host +:+ "/" +:+ path)
  /\ geturl EmptyString path = Raise IndexError
  /\ (forall c, Str.last host = Some c -> c <> "/"%char ->
        geturl host path = Ok (host +:+ path)).
Proof.
  repeat split.
  - unfold geturl. by rewrite last_snoc, init_snoc.
  - unfold geturl.
    change (host +:+ "//") with (host +:+ ("/" +:+ "/")).
    rewrite <- append_assoc.
    rewrite last_snoc, init_snoc. simpl. by rewrite append_assoc.
  - intros c Hc Hne. unfold geturl. rewrite Hc.
    destruct (Ascii.eqb_spec c "/"); [contradiction|reflexivity].
Qed.

Lemma urlencode_nonempty (p : string * string) (ps : list (string * string)) :
  String.eqb (Urllib.urlencode (p :: ps)) EmptyString = false.
Proof.
  apply String.eqb_neq. unfold Urllib.urlencode. simpl.
  destruct (map _ ps) as [|x l].
  - apply append_cons_nonempty.
  - rewrite append_assoc. apply append_cons_nonempty.
Qed.

Lemma with_params_some (url : string) (p : string * string)
    (ps : list (string * string)) :
  with_params url (Some (p :: ps))
  = url +:+ "?" +:+ Urllib.urlencode (p :: ps).
Proof. unfold with_params. by rewrite urlencode_nonempty. Qed.

Lemma with_params_differs (url : string) (p : string * string)
    (ps : list (string * string)) :
  with_params url (Some (p :: ps)) <> url.
Proof.
  rewrite with_params_some. intros Heq.
  assert (url +:+ "?" +:+ Urllib.urlencode (p :: ps) = url +:+ EmptyString)
    as Heq' by (by rewrite append_nil_r).
  apply append_inj_l in Heq'. discriminate.
Qed.

Lemma startswith_self_append (p s : string) : Str.startswith p (p +:+ s) = true.
Proof.
  induction p as [|c p IH]; [reflexivity|]. rewrite append_cons. simpl.
  by rewrite Ascii.eqb_refl.
Qed.

(** X7: a request sent with query parameters is never found again by
    [get_cached_response]: when the cache had nothing under the method and
    the url without query string before, the lookup after the request
    returns [None]. *)
Theorem get_cached_response_never_finds_params (method path : string)
    (data : pyval) (p : string * string) (ps : list (string * string))
    (extra_headers : option (gmap string string)) (sendRaw : bool)
    (w : World) (u : User) (k : string * string) :
  cache_key u method path None = Some k ->
  _RESPONSE_CACHE w !! k = None ->
  snd (get_cached_response
         method path
         (fst (request method path data (Some (p :: ps)) extra_headers
                       sendRaw (w, u))))
  = Ok PNone.
Proof.
  intros Hk Hnone.
  assert (host_url u <> EmptyString) as Hhost.
  { intros Hh. unfold cache_key, geturl in Hk. by rewrite Hh in Hk. }
  destruct (geturl_base _ Hhost) as [base Hbase].
  unfold cache_key in Hk. rewrite Hbase in Hk.
  change (with_params (base +:+ path) None) with (base +:+ path) in Hk.
  injection Hk as <-.
  pose proof (request_keeps method path data (Some (p :: ps)) extra_headers
                sendRaw (w, u)) as (Hh & _).
  assert (cache_key u method path (Some (p :: ps))
          <> Some (method, base +:+ path)) as Hown.
  { unfold cache_key. rewrite Hbase. intros [= Heq].
    by apply with_params_differs in Heq. }
  assert ((if Str.startswith "/auth-jwt/" path then None
           else cache_key u "POST" "/auth-jwt/refresh/" None)
          <> Some (method, base +:+ path)) as Hrefresh.
  { destruct (Str.startswith "/auth-jwt/" path) eqn:Hauth; [discriminate|].
    unfold cache_key. rewrite Hbase.
    change (with_params (base +:+ "/auth-jwt/refresh/") None)
      with (base +:+ "/auth-jwt/refresh/").
    intros [= Hm Heq].
    apply append_inj_l in Heq. subst path. discriminate. }
  pose proof (request_cache_frame method path data (Some (p :: ps))
                extra_headers sendRaw (w, u) (method, base +:+ path)
                Hown Hrefresh)
    as Hframe.
  destruct (request _ _ _ _ _ _ _) as [[w' u'] r].
  cbv [get_cached_response bind get_self get_world lift ret].
  cbn [fst snd] in *.
  rewrite Hh, Hbase. cbn [fst snd].
  by rewrite Hframe, Hnone.
Qed.

End Urls.


(** ** The request that is sent *)

Section Sent.

Context `{Platform}.

Lemma dispatch_sent (w : World) (u : User) (method path : string)
    (data : pyval) (params : option (list (string * string)))
    (extra_headers : option (gmap string string)) (sendRaw : bool)
    (url : string) :
  geturl (host_url u) path = Ok url ->
  let rq := outgoing w u method url data params extra_headers sendRaw in
  let w' :=
    fst (fst (dispatch method path data params extra_headers sendRaw (w, u))) in
  outbox w' = rq :: outbox w /\ content_header w' = req_headers rq.
Proof.
  intros Hurl rq w'. subst w'.
  rewrite (dispatch_run _ _ _ _ _ _ _ _ _ Hurl). fold rq.
  destruct (envelope _); [destruct (caches_response method sendRaw)|];
    by split.
Qed.

Lemma updated_header_lookup (header : gmap string string) (tok : pyval)
    (extra_headers : option (gmap string string)) (k : string) :
  updated_header header tok extra_headers !! k =
    match default ∅ extra_headers !! k with
    | Some v => Some v
    | None =>
        (if truthy tok
         then <[ "Authorization" := "JWT " +:+ format_s tok ]> header
         else header) !! k
    end.
Proof.
  unfold updated_header. destruct extra_headers as [extra|]; simpl.
  - destruct (decide (extra = ∅)) as [->|Hne].
    + by rewrite lookup_empty.
    + destruct (extra !! k) as [v|] eqn:Hk.
      * by apply lookup_union_Some_l.
      * by apply lookup_union_r.
  - by rewrite lookup_empty.
Qed.

(** X9: the headers of the request that [dispatch] sends are the class
    dictionary after the call; every extra header is in them with its
    value; [Authorization] is [JWT] and the access token when one is held
    and the extra headers do not set it; and no header that was in the class
    dictionary before is missing. *)
Theorem sent_headers (w : World) (u : User) (method path : string)
    (data : pyval) (params : option (list (string * string)))
    (extra_headers : option (gmap string string)) (sendRaw : bool)
    (url : string) :
  geturl (host_url u) path = Ok url ->
  exists rq,
    outbox
      (fst (fst (dispatch method path data params extra_headers sendRaw (w, u))))
    = rq :: outbox w
    /\ content_header
         (fst (fst (dispatch method path data params extra_headers sendRaw
                             (w, u))))
       = req_headers rq
    /\ (forall k v,
          default ∅ extra_headers !! k = Some v -> req_headers rq !! k = Some v)
    /\ (truthy (token u) = true ->
        default ∅ extra_headers !! "Authorization" = None ->
        req_headers rq !! "Authorization"
        = Some ("JWT " +:+ format_s (token u)))
    /\ (forall k,
          is_Some (content_header w !! k) -> is_Some (req_headers rq !! k)).
Proof.
  intros Hurl.
  destruct (dispatch_sent w u method path data params extra_headers sendRaw
              url Hurl) as [Hout Hhdr].
  eexists. split; [exact Hout|]. split; [exact Hhdr|].
  unfold outgoing. simpl. repeat split.
  - intros k v Hk. by rewrite updated_header_lookup, Hk.
  - intros Htok Hno. rewrite updated_header_lookup, Hno, Htok.
    apply lookup_insert_eq.
  - intros k [v Hk]. rewrite updated_header_lookup.
    destruct (default ∅ extra_headers !! k); [eauto|].
    destruct (truthy (token u)); [|eauto].
    destruct (decide ("Authorization" = k)) as [<-|Hne].
    + rewrite lookup_insert_eq. eauto.
    + rewrite lookup_insert_ne by done. eauto.
Qed.

(** X10: a GET that returns was sent last, to the resolved url, and
    without a body, whatever [data] and [sendRaw] were. *)
Theorem get_request_has_no_body (path : string) (data : pyval)
    (params : option (list (string * string)))
    (extra_headers : option (gmap string string)) (sendRaw : bool)
    (s s' : St) (env : pyval) :
  request "GET" path data params extra_headers sendRaw s = (s', Ok env) ->
  exists rq rest,
    outbox (fst s') = rq :: rest
    /\ req_method rq = "GET"
    /\ req_data rq = PNone
    /\ cache_key (snd s) "GET" path params = Some ("GET", req_url rq).
Proof.
  intros Hreq.
  destruct (request_returns _ _ _ _ _ _ _ _ _ Hreq) as ([w1 u1] & Hhost & Hd).
  simpl in Hhost.
  destruct (geturl (host_url u1) path) as [url|e] eqn:Hurl.
  - destruct (dispatch_sent w1 u1 "GET" path data params extra_headers
                sendRaw url Hurl) as [Hout _].
    rewrite Hd in Hout. simpl in Hout.
    eexists _, _. split; [exact Hout|].
    unfold cache_key. rewrite <- Hhost, Hurl. by repeat split.
  - rewrite (dispatch_no_host _ _ _ _ _ _ _ _ _ Hurl) in Hd. discriminate.
Qed.

End Sent.


(** ** Tokens after the authentication methods *)

Section Tokens.

Context `{Platform}.

Lemma refresh_token_result (time_remaining : Z)
    (s s' : St) (v : pyval) :
  refresh_token time_remaining s = (s', Ok v) ->
  (truthy (_refresh_token (snd s)) = false /\ v = PNone /\ s' = s)
  \/ (truthy (_refresh_token (snd s)) = true /\ v = token (snd s')).
Proof.
  destruct s as [w u]. rewrite refresh_token_eq. simpl.
  destruct (truthy (_refresh_token u)); simpl.
  2: { intros [= <- <-]. by left. }
  destruct (token_exp_time (utcnow w) u) as [rem|e]; [|discriminate].
  destruct (still_valid rem time_remaining).
  { intros [= <- <-]. by right. }
  destruct (dispatch _ _ _ _ _ _ _) as [[w1 u1] [env|e]]; [|discriminate].
  rewrite store_access_run.
  destruct (py_getitem env "access") as [a|e]; [|discriminate].
  destruct (token_exp_time _ _); [|discriminate].
  intros [= <- <-]. by right.
Qed.

(** X11: when [refresh_token] returns, it returns [None] for a session
    without refresh token, which it leaves as it is, and the access token
    the session now holds otherwise. *)
Theorem refresh_token_returns_stored_token (time_remaining : Z)
    (s s' : St) (v : pyval) :
  refresh_token time_remaining s = (s', Ok v) ->
  (truthy (_refresh_token (snd s)) = false /\ v = PNone /\ s' = s)
  \/ (truthy (_refresh_token (snd s)) = true /\ v = token (snd s')).
Proof. apply refresh_token_result. Qed.

(** X12: after a [refresh_token] that returned, a second one right away
    sends nothing, changes nothing and returns the same, when the token
    now held has more than 20 seconds left. *)
Theorem refresh_token_twice (s s' : St) (v : pyval) (t : Z) :
  refresh_token 20 s = (s', Ok v) ->
  token_exp_time (utcnow (fst s')) (snd s') = Ok (Some t) ->
  20 * 1000000 < t ->
  refresh_token 20 s' = (s', Ok v).
Proof.
  intros Hrun Hexp Hlt.
  pose proof (refresh_token_keeps 20 s) as (_ & _ & _ & Hsame).
  rewrite Hrun in Hsame. simpl in Hsame.
  destruct (refresh_token_result 20 s s' v Hrun)
    as [(Hf & -> & ->)|(Hrt & ->)].
  - destruct s as [w u]. by apply refresh_token_idle.
  - destruct s' as [w' u']. simpl in *.
    apply (refresh_token_fast w' u' 20 (Some t)).
    + by rewrite Hsame.
    + exact Hexp.
    + by apply still_valid_above.
Qed.

(** The session [get_token] works on: both tokens cleared. *)
Lemma get_token_run (w : World) (u : User) (url : string) :
  geturl (host_url u) "/auth-jwt/get/" = Ok url ->
  let u0 := set_refresh_token (PStr EmptyString)
              (set_access_token (PStr EmptyString) u) in
  let rq := outgoing w u0 "POST" url
                     (PDict [("username", PStr (username u));
                             ("password", PStr (password u))])
                     None None false in
  let w1 := push_outbox rq (set_content_header (req_headers rq) w) in
  get_token (w, u) =
    match envelope (urlopen (outbox w) rq) with
    | None => ((w1, u0), Raise (AttributeError "code"))
    | Some env =>
        let w2 := set_response_cache
                    (<[ ("POST", url) := env ]> (_RESPONSE_CACHE w)) w1 in
        match env with
        | PDict d =>
            let access := default PNone (dict_lookup "access" d) in
            let refresh := default PNone (dict_lookup "refresh" d) in
            let u2 := set_refresh_token refresh (set_access_token access u0) in
            match access, refresh with
            | PNone, _ | _, PNone => ((w2, u2), Raise login_failed)
            | _, _ =>
                match token_exp_time (utcnow w) u2 with
                | Ok _ => ((w2, u2), Ok access)
                | Raise e => ((w2, u2), Raise e)
                end
            end
        | _ => ((w2, u0), Raise (AttributeError "get"))
        end
    end.
Proof.
  intros Hurl u0 rq w1. rewrite get_token_eq. cbv zeta. fold u0.
  rewrite (dispatch_run w u0 _ _ _ _ _ _ url Hurl). cbv zeta. fold rq w1.
  destruct (envelope _) as [env|]; [|reflexivity].
  change (caches_response "POST" false) with true. cbv iota.
  destruct env as [| | | | |d]; try reflexivity.
Qed.

Lemma get_token_keeps_host (s : St) :
  host_url (snd (fst (get_token s))) = host_url (snd s).
Proof.
  destruct s as [w u]. rewrite get_token_eq. cbv zeta.
  match goal with
  | |- context [dispatch ?m ?p ?d ?ps ?ex ?raw ?s0] =>
      pose proof (dispatch_self s0 m p d ps ex raw) as Hs;
      destruct (dispatch m p d ps ex raw s0) as [[w1 u1] [env|e]]
  end; simpl in Hs; subst u1; [|reflexivity].
  repeat case_match; reflexivity.
Qed.

(** X13: [get_token] never keeps a token from before the call.  Afterwards
    both tokens are the empty string, or they are the [access] and
    [refresh] entries ([None] for a missing one) of the mapping the login
    request was answered with. *)
Theorem get_token_discards_old_tokens (w : World) (u : User) :
  let u' := snd (fst (get_token (w, u))) in
  (_access_token u' = PStr EmptyString /\ _refresh_token u' = PStr EmptyString)
  \/ exists rq d,
       outbox (fst (fst (get_token (w, u)))) = rq :: outbox w
       /\ envelope (urlopen (outbox w) rq) = Some (PDict d)
       /\ _access_token u' = default PNone (dict_lookup "access" d)
       /\ _refresh_token u' = default PNone (dict_lookup "refresh" d).
Proof.
  intros u'. subst u'.
  destruct (geturl (host_url u) "/auth-jwt/get/") as [url|e] eqn:Hurl.
  - rewrite (get_token_run w u url Hurl).
    destruct (envelope _) as [env|] eqn:Henv; [|by left].
    destruct env as [| | | | |d]; try by left.
    right. eexists _, d. split; [|split; [exact Henv|]].
    + cbv zeta. repeat case_match; reflexivity.
    + cbv zeta. repeat case_match; split; reflexivity.
  - rewrite get_token_eq. cbv zeta.
    rewrite (dispatch_no_host w _ _ _ _ _ _ _ e) by exact Hurl.
    by left.
Qed.

(** X14: a [get_token] that returns has sent one request, a POST of the
    credentials to the login endpoint, was answered with a mapping whose
    [access] and [refresh] are not [None], holds those two as its tokens
    and returns the access token. *)
Theorem get_token_returns (w : World) (u : User) (s' : St) (v : pyval) :
  get_token (w, u) = (s', Ok v) ->
  exists rq d,
    outbox (fst s') = rq :: outbox w
    /\ req_method rq = "POST"
    /\ geturl (host_url u) "/auth-jwt/get/" = Ok (req_url rq)
    /\ req_data rq
       = body "POST" (PDict [("username", PStr (username u));
                             ("password", PStr (password u))]) false
    /\ envelope (urlopen (outbox w) rq) = Some (PDict d)
    /\ dict_lookup "access" d = Some v /\ v <> PNone
    /\ _access_token (snd s') = v
    /\ dict_lookup "refresh" d = Some (_refresh_token (snd s'))
    /\ _refresh_token (snd s') <> PNone.
Proof.
  destruct (geturl (host_url u) "/auth-jwt/get/") as [url|e] eqn:Hurl.
  2: { rewrite get_token_eq. cbv zeta.
       rewrite (dispatch_no_host w _ _ _ _ _ _ _ e) by exact Hurl.
       discriminate. }
  rewrite (get_token_run w u url Hurl). cbv zeta.
  destruct (envelope _) as [env|] eqn:Henv; [|discriminate].
  destruct env as [| | | | |d]; try discriminate.
  destruct (dict_lookup "access" d) as [a|] eqn:Ha; [|discriminate].
  destruct (dict_lookup "refresh" d) as [r|] eqn:Hr;
    [|destruct a; discriminate].
  simpl.
  destruct a; try discriminate;
    destruct r; try discriminate;
    (destruct (token_exp_time _ _); [|discriminate]);
    intros [= <- <-];
    (eexists _, d; split; [reflexivity|]);
    rewrite Ha, Hr; repeat split; try done.
Qed.

(** X15: a [verify_token] that returns has sent one request, a POST of the
    token it held to the verify endpoint, and holds and returns the
    [access] entry of the response; it does not read the new token. *)
Theorem verify_token_returns (w : World) (u : User) (s' : St) (v : pyval) :
  verify_token (w, u) = (s', Ok v) ->
  exists rq env,
    outbox (fst s') = rq :: outbox w
    /\ req_method rq = "POST"
    /\ geturl (host_url u) "/auth-jwt/verify/" = Ok (req_url rq)
    /\ req_data rq = body "POST" (PDict [("token", token u)]) false
    /\ envelope (urlopen (outbox w) rq) = Some env
    /\ py_getitem env "access" = Ok v
    /\ snd s' = set_access_token v u.
Proof.
  rewrite verify_token_eq.
  destruct (geturl (host_url u) "/auth-jwt/verify/") as [url|e] eqn:Hurl.
  2: { rewrite (dispatch_no_host w _ _ _ _ _ _ _ e) by exact Hurl.
       discriminate. }
  rewrite (dispatch_run w u _ _ _ _ _ _ url Hurl).
  destruct (envelope _) as [env|] eqn:Henv; [|discriminate].
  destruct (py_getitem env "access") as [a|e] eqn:Ha; [|discriminate].
  intros [= <- <-].
  eexists _, env. split; [reflexivity|]. by repeat split.
Qed.

End Tokens.


(** ** The payload and the clock *)

Section Payload_facts.

Context `{Platform}.

(** X16: the payload is read from the second segment alone: two tokens with
    the same second segment have the same payload and the same remaining
    time, whatever their first segment and their signature are. *)
Theorem jwt_payload_second_segment_only (u1 u2 : User) (t1 t2 h1 h2 seg : string)
    (r1 r2 : list string) (now : Z) :
  _access_token u1 = PStr t1 ->
  _access_token u2 = PStr t2 ->
  Str.split "." t1 = h1 :: seg :: r1 ->
  Str.split "." t2 = h2 :: seg :: r2 ->
  jwt_payload u1 = jwt_payload u2
  /\ token_exp_time now u1 = token_exp_time now u2.
Proof.
  intros Ht1 Ht2 Hs1 Hs2.
  assert (jwt_payload u1 = jwt_payload u2) as Hp.
  { unfold jwt_payload. rewrite Ht1, Ht2.
    rewrite (split_single_empty _ _ _ _ Hs1), (split_single_empty _ _ _ _ Hs2).
    simpl. by rewrite Hs1, Hs2. }
  split; [exact Hp|]. unfold token_exp_time. by rewrite Hp.
Qed.


Lemma length_append (a b : string) :
  String.length (a +:+ b) = (String.length a + String.length b)%nat.
Proof.
  induction a as [|c a IH]; [reflexivity|].
  rewrite append_cons. simpl. by rewrite IH.
Qed.

Lemma length_replicate (n : nat) (c : ascii) :
  String.length (Str.replicate n c) = n.
Proof. induction n as [|n IH]; [reflexivity|]. simpl. by rewrite IH. Qed.

(** X18: the padding step only appends pad characters, at most three, makes
    the length a multiple of four, and does nothing to a segment it has
    padded. *)
Theorem padded_multiple_of_four (s : string) :
  (String.length (padded s) mod 4 = 0)%nat
  /\ padded (padded s) = padded s
  /\ exists n, (n <= 3)%nat /\ padded s = s +:+ Str.replicate n Base64.pad.
Proof.
  assert ((String.length (padded s) mod 4 = 0)%nat) as Hlen.
  { unfold padded.
    destruct (Nat.eqb_spec (String.length s mod 4) 0) as [E|E]; [exact E|].
    rewrite length_append, length_replicate.
    pose proof (Nat.mod_upper_bound (String.length s) 4 ltac:(lia)) as Hb.
    pose proof (Nat.div_mod_eq (String.length s) 4) as Hd.
    replace (String.length s + (4 - String.length s mod 4))%nat
      with ((1 + String.length s / 4) * 4)%nat by lia.
    apply Nat.Div0.mod_mul. }
  split; [exact Hlen|]. split.
  - unfold padded at 1. by rewrite Hlen.
  - unfold padded.
    destruct (Nat.eqb_spec (String.length s mod 4) 0) as [E|E].
    + exists 0%nat. split; [lia|]. by rewrite append_nil_r.
    + exists (4 - String.length s mod 4)%nat. split; [lia|reflexivity].
Qed.

End Payload_facts.


(** ** The callers *)

Section Caller_facts.

Context `{Platform}.

Lemma lookup_after_request (method path : string) (data : pyval)
    (extra_headers : option (gmap string string))
    (s s' : St) (env : pyval) :
  caches_response method false = true ->
  request method path data None extra_headers false s = (s', Ok env) ->
  get_cached_response method path s' = (s', Ok env).
Proof.
  intros Hc Hreq.
  destruct (request_returns _ _ _ _ _ _ _ _ _ Hreq) as ([w1 u1] & Hhost & Hd).
  destruct (dispatch_stores _ _ _ _ _ _ _ _ _ _ Hc Hd)
    as (url & Hurl & Hself & Hcache).
  destruct s' as [w' u']. simpl in *. subst u'.
  cbv [get_cached_response bind get_self get_world lift ret]. simpl.
  rewrite Hurl.
  change (with_params url None) with url in Hcache.
  by rewrite Hcache.
Qed.

Lemma operation_method_mutating (operation : string) :
  operation = "create" \/ operation = "update" \/ operation = "partial_update" ->
  caches_response (operation_method operation) false = true.
Proof. intros [->|[->| ->]]; reflexivity. Qed.

(** [task.py] refuses a task id together with [list] or [create]
    before it sends or changes anything. *)
Lemma task_component_bad_input (operation : string) (do_request : bool)
    (config : pyval) (taskId : string) (s : St) :
  taskId <> EmptyString ->
  operation = "list" \/ operation = "create" ->
  task_component operation do_request config taskId s
  = (s, Raise bad_task_input).
Proof.
  intros Hid Hop. unfold task_component.
  apply String.eqb_neq in Hid. rewrite Hid.
  by destruct Hop as [-> | ->].
Qed.

(** X19: for [create], [update] and [partial_update], a run of [task.py]
    with [do_request] on that gives outputs is repeated by a run with
    [do_request] off: the same outputs, nothing sent, nothing changed. *)
Theorem task_component_redisplays (operation : string) (config : pyval)
    (taskId : string) (s s' : St) (out : pyval * option pyval) :
  operation = "create" \/ operation = "update" \/ operation = "partial_update" ->
  task_component operation true config taskId s = (s', Ok out) ->
  task_component operation false config taskId s' = (s', Ok out).
Proof.
  intros Hop. apply operation_method_mutating in Hop.
  unfold task_component.
  destruct (negb (String.eqb taskId EmptyString)
            && (String.eqb operation "list" || String.eqb operation "create"));
    [discriminate|].
  cbv [bind lift].
  destruct (request _ _ _ _ _ _ _) as [s1 [env|e]] eqn:Hreq; [|discriminate].
  intros Hout.
  assert (s1 = s') as -> by congruence.
  rewrite (lookup_after_request _ _ _ _ _ _ _ Hop Hreq). exact Hout.
Qed.

(** X20: for an operation sent as GET ([list], [read] and every unknown
    operation), a run of [task.py] with [do_request] off has nothing to
    show: it outputs [None] and no task, sends nothing and changes
    nothing. *)
Theorem task_component_get_not_redisplayed (operation : string)
    (config : pyval) (taskId : string) (w : World) (u : User) :
  cache_keys_mutating w ->
  host_url u <> EmptyString ->
  operation_method operation = "GET" ->
  taskId = EmptyString \/ operation <> "list" ->
  task_component operation false config taskId (w, u)
  = ((w, u), Ok (PNone, None)).
Proof.
  intros Hinv Hhost Hget Hok. unfold task_component.
  assert (negb (String.eqb taskId EmptyString)
          && (String.eqb operation "list" || String.eqb operation "create")
          = false) as ->.
  { destruct Hok as [-> | Hne]; [reflexivity|].
    apply String.eqb_neq in Hne. rewrite Hne.
    destruct (String.eqb_spec operation "create") as [-> |_];
      [discriminate|].
    by rewrite andb_false_r. }
  rewrite Hget. cbv [bind lift].
  destruct (geturl_defined (host_url u) (Task_url taskId) Hhost)
    as [url Hurl].
  cbv [get_cached_response bind get_self get_world lift ret]. simpl.
  rewrite Hurl.
  destruct (_RESPONSE_CACHE w !! ("GET", url)) as [v|] eqn:Hl; [|reflexivity].
  apply Hinv in Hl. discriminate.
Qed.

(** X21: the script of [login.py] always reaches the service: whatever
    [server] is, the session has a host, and exactly one request is sent,
    a POST of the credentials to the login endpoint of that host, with
    the content type as its only header. *)
Theorem login_component_sends_once (server username password : string)
    (w : World) :
  let s' := fst (login_component server username password w) in
  host_url (snd s') <> EmptyString
  /\ exists rq,
       outbox (fst s') = rq :: outbox w
       /\ req_method rq = "POST"
       /\ geturl (host_url (snd s')) "/auth-jwt/get/" = Ok (req_url rq)
       /\ req_data rq
          = body "POST" (PDict [("username", PStr username);
                                ("password", PStr password)]) false
       /\ req_headers rq = {[ "content-type" := "application/json" ]}.
Proof.
  unfold login_component.
  set (host := if negb (String.eqb server EmptyString) then server
               else "http://localhost:8001").
  assert (host <> EmptyString) as Hhost.
  { subst host. destruct (String.eqb_spec server EmptyString); simpl;
      [discriminate|done]. }
  set (u := User_init username password host).
  pose proof (get_token_keeps_host (module_loaded w, u)) as Hh.
  destruct (geturl_defined host "/auth-jwt/get/" Hhost) as [url Hurl].
  pose proof (get_token_run (module_loaded w) u url Hurl) as Hrun.
  cbv zeta in *. simpl in Hh. rewrite Hh.
  split; [exact Hhost|].
  rewrite Hrun, Hurl.
  eexists (outgoing (module_loaded w) _ "POST" url _ None None false).
  split; [repeat case_match; reflexivity|]. by repeat split.
Qed.

End Caller_facts.


(** ** The properties on concrete runs *)

Section Extra_examples.

Import Ex Scenes.

Lemma World_init_cache_keys (now : Z) : cache_keys_mutating (World_init now).
Proof.
  intros method url v Hl. unfold World_init in Hl.
  cbn [_RESPONSE_CACHE] in Hl. by rewrite lookup_empty in Hl.
Qed.

Lemma cache_keys_stay_mutating_witness :
  cache_keys_mutating (fst (fst post_plain)).
Proof.
  apply (proj1 (@cache_keys_stay_mutating listing "POST" "/api/task/"
                  (PDict []) None None false 20 (World_init 0, bob)
                  (World_init_cache_keys 0))).
Defined.

Lemma cache_never_evicts_witness :
  is_Some (_RESPONSE_CACHE (fst (fst put_after_post))
             !! ("POST", "http://localhost:8001/api/task/")).
Proof.
  refine (proj1 (@cache_never_evicts listing "PUT" "/api/task/t1/" (PDict [])
                   None None false 20 (fst post_plain)
                   ("POST", "http://localhost:8001/api/task/") _)).
  exists (PList [PInt 1]). vm_compute. reflexivity.
Defined.

Lemma request_cache_elsewhere_witness :
  _RESPONSE_CACHE (fst (fst put_after_post))
    !! ("POST", "http://localhost:8001/api/task/")
  = _RESPONSE_CACHE (fst (fst post_plain))
      !! ("POST", "http://localhost:8001/api/task/").
Proof.
  refine (@request_cache_elsewhere listing "PUT" "/api/task/t1/" (PDict [])
            None None false (fst post_plain)
            ("POST", "http://localhost:8001/api/task/") _ _);
    vm_compute; discriminate.
Defined.

Lemma get_cached_response_not_mutating_witness :
  get_cached_response "GET" "/api/task/" (World_init 0, bob)
  = ((World_init 0, bob), Ok PNone).
Proof.
  refine (get_cached_response_not_mutating (World_init 0) bob
            "GET" "/api/task/" (World_init_cache_keys 0) eq_refl _).
  discriminate.
Defined.

Lemma geturl_trailing_slash_witness :
  geturl "http://localhost:8001/" "/api/task/"
  = Ok "http://localhost:8001/api/task/"
  /\ geturl "http://localhost:8001" "/api/task/"
     = Ok "http://localhost:8001/api/task/".
Proof.
  split.
  - apply (proj1 (geturl_trailing_slash "http://localhost:8001" "/api/task/")).
  - refine (proj2 (proj2 (proj2 (geturl_trailing_slash
                                   "http://localhost:8001" "/api/task/")))
                  "1"%char _ _); [reflexivity|discriminate].
Defined.

Lemma get_cached_response_never_finds_params_witness :
  snd (get_cached_response "POST" "/api/task/" (fst post_with_query))
  = Ok PNone.
Proof.
  refine (@get_cached_response_never_finds_params listing "POST" "/api/task/"
            (PDict []) ("page", "2") [] None false (World_init 0) bob
            ("POST", "http://localhost:8001/api/task/") _ _);
    reflexivity.
Defined.

Lemma sent_headers_witness :
  exists rq,
    outbox (fst (fst (@dispatch listing "GET" "/api/task/" PNone None
                                (Some {[ "X-Trace" := "1" ]}) false
                                (World_init 0, alice))))
    = [rq]
    /\ req_headers rq !! "X-Trace" = Some "1"
    /\ req_headers rq !! "Authorization" = Some "JWT T"
    /\ is_Some (req_headers rq !! "content-type").
Proof.
  destruct (@sent_headers listing (World_init 0) alice "GET" "/api/task/"
              PNone None (Some {[ "X-Trace" := "1" ]}) false
              "http://localhost:8001/api/task/" eq_refl)
    as (rq & Hout & _ & Hextra & Hauth & Hkeep).
  exists rq. split; [exact Hout|]. split; [|split].
  - apply Hextra. vm_compute. reflexivity.
  - apply Hauth; vm_compute; reflexivity.
  - apply Hkeep. exists "application/json". vm_compute. reflexivity.
Defined.

Lemma get_request_has_no_body_witness :
  exists rq rest,
    outbox (fst (fst alice_get)) = rq :: rest
    /\ req_method rq = "GET"
    /\ req_data rq = PNone
    /\ cache_key alice "GET" "/api/task/" None = Some ("GET", req_url rq).
Proof.
  refine (@get_request_has_no_body listing "/api/task/" PNone None
            (Some {[ "X-Trace" := "1" ]}) false (World_init 0, alice)
            (fst alice_get) (PList [PInt 1]) _).
  vm_compute. reflexivity.
Defined.

Lemma refresh_token_returns_stored_token_witness :
  (truthy (PStr "R") = false /\ PStr token_exp_1000 = PNone
   /\ fst refreshed = (World_init 90000000, bob_logged_in))
  \/ (truthy (PStr "R") = true
      /\ PStr token_exp_1000 = token (snd (fst refreshed))).
Proof.
  refine (@refresh_token_returns_stored_token renewing 20
            (World_init 90000000, bob_logged_in) (fst refreshed)
            (PStr token_exp_1000) _).
  vm_compute. reflexivity.
Defined.

Lemma refresh_token_twice_witness :
  @refresh_token renewing 20 (fst refreshed)
  = (fst refreshed, Ok (PStr token_exp_1000)).
Proof.
  refine (@refresh_token_twice renewing (World_init 90000000, bob_logged_in)
            (fst refreshed) (PStr token_exp_1000) 910000000 _ _ _).
  - vm_compute. reflexivity.
  - vm_compute. reflexivity.
  - lia.
Defined.

Lemma get_token_returns_witness :
  exists rq d,
    outbox (fst (fst logged_in)) = [rq]
    /\ req_method rq = "POST"
    /\ geturl "http://localhost:8001" "/auth-jwt/get/" = Ok (req_url rq)
    /\ req_data rq
       = @body logging_in "POST"
               (PDict [("username", PStr "bob"); ("password", PStr "secret")])
               false
    /\ @envelope logging_in (@urlopen logging_in [] rq) = Some (PDict d)
    /\ dict_lookup "access" d = Some (PStr token_exp_100)
    /\ PStr token_exp_100 <> PNone
    /\ _access_token (snd (fst logged_in)) = PStr token_exp_100
    /\ dict_lookup "refresh" d = Some (_refresh_token (snd (fst logged_in)))
    /\ _refresh_token (snd (fst logged_in)) <> PNone.
Proof.
  refine (@get_token_returns logging_in (World_init 0) bob (fst logged_in)
            (PStr token_exp_100) _).
  vm_compute. reflexivity.
Defined.

Lemma verify_token_returns_witness :
  exists rq env,
    outbox (fst (fst verified)) = [rq]
    /\ req_method rq = "POST"
    /\ geturl "http://localhost:8001" "/auth-jwt/verify/" = Ok (req_url rq)
    /\ req_data rq
       = @body granting "POST" (PDict [("token", PStr token_exp_100)]) false
    /\ @envelope granting (@urlopen granting [] rq) = Some env
    /\ py_getitem env "access" = Ok (PStr token_exp_100)
    /\ snd (fst verified)
       = set_access_token (PStr token_exp_100) bob_logged_in.
Proof.
  refine (@verify_token_returns granting (World_init 0) bob_logged_in
            (fst verified) (PStr token_exp_100) _).
  vm_compute. reflexivity.
Defined.

Lemma jwt_payload_second_segment_only_witness :
  @jwt_payload listing (set_access_token (PStr token_exp_100) bob)
  = @jwt_payload listing
      (set_access_token (PStr "x.eyJleHAiOjEwMH0.forged") alice)
  /\ @token_exp_time listing 5000000
       (set_access_token (PStr token_exp_100) bob)
     = @token_exp_time listing 5000000
         (set_access_token (PStr "x.eyJleHAiOjEwMH0.forged") alice).
Proof.
  refine (@jwt_payload_second_segment_only listing
            (set_access_token (PStr token_exp_100) bob)
            (set_access_token (PStr "x.eyJleHAiOjEwMH0.forged") alice)
            token_exp_100 "x.eyJleHAiOjEwMH0.forged" "h" "x"
            "eyJleHAiOjEwMH0" ["s"] ["forged"] 5000000
            eq_refl eq_refl _ _); reflexivity.
Defined.

Lemma task_component_redisplays_witness :
  @task_component serving_task "create" false PNone EmptyString (fst created)
  = (fst created, Ok (PList [task_details], Some (PStr "t1"))).
Proof.
  refine (@task_component_redisplays serving_task "create" PNone EmptyString
            (World_init 0, bob) (fst created)
            (PList [task_details], Some (PStr "t1"))
            (or_introl eq_refl) _).
  vm_compute. reflexivity.
Defined.

Lemma task_component_get_not_redisplayed_witness :
  @task_component listing "list" false PNone EmptyString (World_init 0, bob)
  = ((World_init 0, bob), Ok (PNone, None)).
Proof.
  refine (@task_component_get_not_redisplayed listing "list" PNone EmptyString
            (World_init 0) bob (World_init_cache_keys 0) _ eq_refl
            (or_introl eq_refl)).
  discriminate.
Defined.

End Extra_examples.

(** ** How [request] composes with the refresh *)

Section Request_facts.

Context `{Platform}.

(** X22: a [request] that returns was sent with the access token the
    session holds afterwards, the refreshed one when the request
    refreshed, unless the extra headers set [Authorization] themselves. *)
Theorem request_sent_with_current_token (method path : string) (data : pyval)
    (params : option (list (string * string)))
    (extra_headers : option (gmap string string)) (sendRaw : bool)
    (s s' : St) (env : pyval) :
  request method path data params extra_headers sendRaw s = (s', Ok env) ->
  truthy (token (snd s')) = true ->
  default ∅ extra_headers !! "Authorization" = None ->
  exists rq rest,
    outbox (fst s') = rq :: rest
    /\ req_method rq = method
    /\ req_headers rq !! "Authorization"
       = Some ("JWT " +:+ format_s (token (snd s'))).
Proof.
  intros Hreq Htok Hextra.
  destruct (request_returns _ _ _ _ _ _ _ _ _ Hreq) as ([w1 u1] & _ & Hd).
  pose proof (dispatch_self (w1, u1) method path data params extra_headers
                sendRaw) as Hself.
  rewrite Hd in Hself. simpl in Hself.
  destruct (geturl (host_url u1) path) as [url|e] eqn:Hurl.
  - destruct (dispatch_sent w1 u1 method path data params extra_headers
                sendRaw url Hurl) as [Hout _].
    rewrite Hd in Hout. simpl in Hout.
    eexists _, _. split; [exact Hout|]. split; [reflexivity|].
    unfold outgoing. simpl.
    rewrite updated_header_lookup, Hextra, <- Hself, Htok.
    apply lookup_insert_eq.
  - rewrite (dispatch_no_host _ _ _ _ _ _ _ _ _ Hurl) in Hd. discriminate.
Qed.

(** X23: while a refresh token is held, an access token whose remaining
    time cannot be read (it does not decode, or has no usable [exp])
    stops every request to a path outside [/auth-jwt/]: the request raises
    that error, sends nothing and changes nothing. *)
Theorem request_stopped_by_unreadable_token (method path : string)
    (data : pyval) (params : option (list (string * string)))
    (extra_headers : option (gmap string string)) (sendRaw : bool)
    (w : World) (u : User) (e : exn) :
  truthy (_refresh_token u) = true ->
  token_exp_time (utcnow w) u = Raise e ->
  Str.startswith "/auth-jwt/" path = false ->
  request method path data params extra_headers sendRaw (w, u)
  = ((w, u), Raise e).
Proof.
  intros Hrt Hexp Hpath.
  by rewrite request_eq, Hpath, refresh_token_eq, Hrt, Hexp.
Qed.

(** X24: without a refresh token a [request] never refreshes: it is the
    request alone, sent with whatever access token is held, and the
    tokens stay as they are. *)
Theorem request_without_refresh_token (method path : string)
    (data : pyval) (params : option (list (string * string)))
    (extra_headers : option (gmap string string)) (sendRaw : bool) (s : St) :
  truthy (_refresh_token (snd s)) = false ->
  request method path data params extra_headers sendRaw s
  = dispatch method path data params extra_headers sendRaw s
  /\ snd (fst (request method path data params extra_headers sendRaw s))
     = snd s.
Proof.
  intros Hrt. destruct s as [w u].
  assert (request method path data params extra_headers sendRaw (w, u)
          = dispatch method path data params extra_headers sendRaw (w, u))
    as Heq.
  { rewrite request_eq. destruct (Str.startswith "/auth-jwt/" path);
      [reflexivity|].
    by rewrite (refresh_token_idle w u 20 Hrt). }
  split; [exact Heq|]. rewrite Heq. apply dispatch_self.
Qed.

End Request_facts.

Section Request_examples.

Import Ex Scenes.

Lemma request_sent_with_current_token_witness :
  exists rq rest,
    outbox (fst (fst get_refreshing)) = rq :: rest
    /\ req_method rq = "GET"
    /\ req_headers rq !! "Authorization" = Some ("JWT " +:+ token_exp_1000).
Proof.
  refine (@request_sent_with_current_token renewing "GET" "/api/task/" PNone
            None None false (World_init 90000000, bob_logged_in)
            (fst get_refreshing)
            (PDict [("access", PStr token_exp_1000)]) _ _ _).
  - vm_compute. reflexivity.
  - vm_compute. reflexivity.
  - vm_compute. reflexivity.
Defined.

Lemma request_stopped_by_unreadable_token_witness :
  @request listing "GET" "/api/task/" PNone None None false
           (World_init 0, bob_undecodable)
  = ((World_init 0, bob_undecodable), Raise IndexError).
Proof.
  refine (@request_stopped_by_unreadable_token listing "GET" "/api/task/"
            PNone None None false (World_init 0) bob_undecodable IndexError
            _ _ _); reflexivity.
Defined.

Lemma request_without_refresh_token_witness :
  post_plain
  = @dispatch listing "POST" "/api/task/" (PDict []) None None false
              (World_init 0, bob)
  /\ snd (fst post_plain) = bob.
Proof.
  refine (@request_without_refresh_token listing "POST" "/api/task/"
            (PDict []) None None false (World_init 0, bob) _).
  reflexivity.
Defined.

End Request_examples.
